(** * Flames.Blue API

    A shallow embedding of [main.py] (the FastAPI application: helpers,
    request schemas and route handlers) and of the [Product] schema of
    [schemas.py], over a small model of the document store the handlers
    talk to, followed by the properties of the handlers.

    Conventions of the embedding:
    - a Python [dict] with string keys is a [gmap string value]; equality
      of dicts does not depend on insertion order, and neither does
      equality of maps;
    - a Python [float] is a binary64 [float]; an [int] is a [Z];
    - a Python [str] is held in UTF-8, one [ascii] per byte; where the
      program counts characters, the embedding counts UTF-8 sequences;
    - the global [db] handle is an [option Database]; it is threaded
      through the handlers by the monad [M], which also carries raised
      exceptions;
    - what the Python runtime and the store engine compute outside of
      this repository and is not fixed here ([repr] of composite values,
      the regular-expression engine) is the class [Runtime]. *)

From Stdlib Require Import ZArith String Ascii List Floats.
From stdpp Require Import gmap strings list fin_maps.

(** ** bson.ObjectId *)

Module Bson.

#[global] Instance byte_eq_dec : EqDecision Byte.byte := Byte.byte_eq_dec.

(** An ObjectId wraps its binary form; generated and parsed ids hold 12 bytes. *)
Record ObjectId : Type := mkObjectId { binary : list Byte.byte }.

#[global] Instance ObjectId_eq_dec : EqDecision ObjectId.
Proof. solve_decision. Defined.

Definition hexdigit (n : N) : ascii :=
  match String.get (N.to_nat n) "0123456789abcdef" with
  | Some c => c
  | None => "0"%char
  end.

Definition hexval (c : ascii) : option N :=
  let n := N_of_ascii c in
  if ((48 <=? n) && (n <=? 57))%N then Some (n - 48)%N
  else if ((97 <=? n) && (n <=? 102))%N then Some (n - 87)%N
  else if ((65 <=? n) && (n <=? 70))%N then Some (n - 55)%N
  else None.

(** [binascii.hexlify]: two lowercase hexadecimal digits per byte. *)
Fixpoint hexlify (bs : list Byte.byte) : string :=
  match bs with
  | [] => EmptyString
  | b :: rest =>
      let n := Byte.to_N b in
      String (hexdigit (n / 16)) (String (hexdigit (n mod 16)) (hexlify rest))
  end.

(** [bytes.fromhex] on a string of digit pairs, either case. A string
    with anything else in it is refused; that covers ASCII whitespace
    between pairs, which [bytes.fromhex] skips. *)
Fixpoint fromhex (s : string) : option (list Byte.byte) :=
  match s with
  | EmptyString => Some []
  | String _ EmptyString => None
  | String a (String b rest) =>
      match hexval a, hexval b with
      | Some h, Some l =>
          match Byte.of_N (16 * h + l), fromhex rest with
          | Some x, Some bs => Some (x :: bs)
          | _, _ => None
          end
      | _, _ => None
      end
  end.

(** [ObjectId(s)] for a string [s]: 24 hexadecimal characters, or
    [InvalidId] (here [None]). *)
Definition of_str (s : string) : option ObjectId :=
  if (String.length s =? 24)%nat then mkObjectId <$> fromhex s else None.

(** [ObjectId.is_valid(s)] for a string. *)
Definition is_valid (s : string) : bool :=
  match of_str s with Some _ => true | None => false end.

(** [str(oid)] *)
Definition to_str (o : ObjectId) : string := hexlify (binary o).

(** The shape of the ids the driver generates. *)
Definition well_formed (o : ObjectId) : Prop := List.length (binary o) = 12%nat.

End Bson.

Export Bson(ObjectId).

(** ** Python values held in documents and responses *)

#[warnings="-register-all"] Inductive value : Type :=
| VNone
| VBool (b : bool)
| VInt (n : Z)
| VFloat (f : float)
| VStr (s : string)
| VList (l : list value)
| VDict (d : gmap string value)
| VObjectId (o : ObjectId).

(** A document: a dict with string keys. *)
Abbreviation doc := (gmap string value).

(** What is computed outside this repository. *)
Class Runtime : Type := {
  (** [str(v)] for a value that is neither a string nor an ObjectId *)
  py_repr : value -> string;
  (** the store's regular-expression engine: [regex_search pattern options]
      is the compiled search predicate, or [None] when the pattern does not
      compile *)
  regex_search : string -> string -> option (string -> bool)
}.

(** [str(v)] *)
Definition py_str `{Runtime} (v : value) : string :=
  match v with
  | VStr s => s
  | VObjectId o => Bson.to_str o
  | _ => py_repr v
  end.

(** Truth value of an [Optional[str]] in a condition. *)
Definition truthy (o : option string) : bool :=
  match o with
  | Some s => negb (String.eqb s "")
  | None => false
  end.

(** ** Exceptions and the handler monad *)

(** One entry of a pydantic validation report: where, and what kind. *)
Inductive loc_item : Type :=
| LKey (k : string)
| LIndex (i : nat).

Inductive error_type : Type :=
| missing
| wrong_type
| greater_than_equal.

Record error_details : Type := mkError { loc : list loc_item; type_ : error_type }.

Inductive exn : Type :=
| HTTPException (status_code : Z) (detail : string)
| RequestValidationError (errors : list error_details)
| InvalidId
| ValueError (msg : string)
| AttributeError (msg : string)
| PyMongoError (msg : string)
| Exception_ (msg : string).

(** [str(e)] *)
Definition exn_str (e : exn) : string :=
  match e with
  | HTTPException _ d => d
  | RequestValidationError _ => "validation error"
  | InvalidId => "invalid ObjectId"
  | ValueError m => m
  | AttributeError m => m
  | PyMongoError m => m
  | Exception_ m => m
  end.

Inductive result (A : Type) : Type :=
| Ok (a : A)
| Raise (e : exn).
Arguments Ok {A} a.
Arguments Raise {A} e.

(** ** The document store *)

(** A database holds named collections, each a sequence of documents in
    natural (insertion) order. [fault = Some msg] is a store that cannot be
    reached: every operation on it raises with message [msg]. [assigned]
    holds the fields a record is given at the store's level when it is
    inserted without them (a timestamp, say). *)
Record Database : Type := mkDatabase {
  collections : gmap string (list doc);
  fault : option string;
  assigned : doc
}.

(** The global [db] of the [database] module: [None] when the store was
    never configured. *)
Abbreviation handle := (option Database).

(** State ([db] and the store behind it) and exceptions. *)
Definition M (A : Type) : Type := handle -> result A * handle.

#[global] Instance M_ret : MRet M := fun A a s => (Ok a, s).

#[global] Instance M_bind : MBind M := fun A B k m s =>
  match m s with
  | (Ok a, s') => k a s'
  | (Raise e, s') => (Raise e, s')
  end.

Definition raise {A} (e : exn) : M A := fun s => (Raise e, s).

(** [try: m  except Exception as e: h e] *)
Definition try_except {A} (m : M A) (h : exn -> M A) : M A :=
  fun s =>
    match m s with
    | (Ok a, s') => (Ok a, s')
    | (Raise e, s') => h e s'
    end.

(** Reading the global [db]. *)
Definition get_db : M handle := fun s => (Ok s, s).

(** *** Queries

    The filters this program builds: a field equal to a string
    ([flt["category"] = category]), a field equal to an ObjectId
    ([{"_id": ObjectId(...)}]) and a regular-expression search
    ([{"$regex": q, "$options": "i"}]). Equality is equality with the
    stored field (that the store also matches an array field by one of its
    elements is left out: the fields filtered on are written as strings
    and identifiers). *)
Inductive condition : Type :=
| EqStr (s : string)
| EqObjectId (o : ObjectId)
| Regex (pattern options : string).

Abbreviation query := (gmap string condition).

Definition condition_compiles `{Runtime} (c : condition) : Prop :=
  match c with
  | Regex p o => is_Some (regex_search p o)
  | _ => True
  end.

#[global] Instance condition_compiles_dec `{Runtime} c : Decision (condition_compiles c).
Proof. destruct c; simpl; apply _. Defined.

Definition holds `{Runtime} (c : condition) (v : option value) : bool :=
  match c, v with
  | EqStr s, Some (VStr s') => String.eqb s' s
  | EqObjectId o, Some (VObjectId o') => bool_decide (o' = o)
  | Regex p o, Some (VStr s') =>
      match regex_search p o with
      | Some search => search s'
      | None => false
      end
  | _, _ => false
  end.

(** A document matches a filter when every condition of the filter holds
    of the field it names; the empty filter matches every document. *)
Definition matches `{Runtime} (flt : query) (d : doc) : bool :=
  bool_decide (map_Forall (fun k c => holds c (d !! k) = true) flt).

Definition query_compiles `{Runtime} (flt : query) : bool :=
  bool_decide (map_Forall (fun _ c => condition_compiles c) flt).

(** [db.<name>]: the documents of a collection; a collection that was
    never written to is empty. *)
Definition collection (db : Database) (name : string) : list doc :=
  default [] (collections db !! name).

(** [Cursor.limit(n)]: a limit of 0 is no limit; a negative limit asks for
    [|n|] documents in a single batch (the size of a batch is not
    modelled). *)
Definition Cursor_limit (n : Z) (docs : list doc) : list doc :=
  if (n =? 0)%Z then docs else take (Z.abs_nat n) docs.

Definition no_attribute (name : string) : exn :=
  AttributeError ("'NoneType' object has no attribute '" +:+ name +:+ "'").

(** [list(db.<name>.find(flt).limit(n))] *)
Definition find `{Runtime} (name : string) (flt : query) (n : Z) : M (list doc) :=
  fun s =>
    match s with
    | None => (Raise (no_attribute name), s)
    | Some db =>
        match fault db with
        | Some msg => (Raise (PyMongoError msg), s)
        | None =>
            if query_compiles flt
            then (Ok (Cursor_limit n (List.filter (matches flt) (collection db name))), s)
            else (Raise (PyMongoError "Regular expression is invalid"), s)
        end
    end.

(** [db.<name>.find_one(flt)]: the first match in natural order, or [None]. *)
Definition find_one `{Runtime} (name : string) (flt : query) : M (option doc) :=
  fun s =>
    match s with
    | None => (Raise (no_attribute name), s)
    | Some db =>
        match fault db with
        | Some msg => (Raise (PyMongoError msg), s)
        | None =>
            if query_compiles flt
            then (Ok (head (List.filter (matches flt) (collection db name))), s)
            else (Raise (PyMongoError "Regular expression is invalid"), s)
        end
    end.

(** [db.list_collection_names()] *)
Definition list_collection_names : M (list string) :=
  fun s =>
    match s with
    | None => (Raise (no_attribute "list_collection_names"), s)
    | Some db =>
        match fault db with
        | Some msg => (Raise (PyMongoError msg), s)
        | None => (Ok (map_to_list (collections db)).*1, s)
        end
    end.

(** Modelled from the spec: [create_document] of the [database] module,
    which is not among the sources. It persists exactly one new record in
    the named collection: the data, completed with the store-assigned
    defaults for the fields the data does not have, under a new
    identifier; and it returns the identifier rendered as a string.
    [new_id] is the identifier generated for this insert. Without a store
    there is nothing to insert into and the helper raises. *)
Definition create_document (new_id : ObjectId) (collection_name : string) (data : doc)
  : M string :=
  fun s =>
    match s with
    | None => (Raise (Exception_ "Database not available"), s)
    | Some db =>
        match fault db with
        | Some msg => (Raise (PyMongoError msg), s)
        | None =>
            let stored := <["_id" := VObjectId new_id]> (data ∪ assigned db) in
            let docs := collection db collection_name ++ [stored] in
            (Ok (Bson.to_str new_id),
             Some (mkDatabase (<[collection_name := docs]> (collections db)) None
                     (assigned db)))
        end
    end.

(** ** Helpers of [main.py] *)

(** [serialize_doc]; its argument is a dict or [None] (what [find_one]
    returns). *)
Definition serialize_doc `{Runtime} (doc : option (gmap string value))
  : option (gmap string value) :=
  match doc with
  | None => doc
  | Some m =>
      if decide (m = ∅) then doc
      else
        let d := m in
        match d !! "_id" with
        | Some v => Some (<["id" := VStr (py_str v)]> (delete "_id" d))
        | None => Some d
        end
  end.

(** [PyObjectId.validate] *)
Definition PyObjectId_validate (v : value) : result ObjectId :=
  match v with
  | VObjectId o => Ok o
  | VStr s =>
      if negb (Bson.is_valid s) then Raise (ValueError "Invalid objectid")
      else match Bson.of_str s with
           | Some o => Ok o
           | None => Raise InvalidId
           end
  | _ => Raise (ValueError "Invalid objectid")
  end.

(** [not obj] for a dict or [None]. *)
Definition not_ (obj : option doc) : bool :=
  match obj with
  | None => true
  | Some m => bool_decide (m = ∅)
  end.

(** [ObjectId(s)], raising [InvalidId]. *)
Definition ObjectId_ (s : string) : M ObjectId :=
  match Bson.of_str s with
  | Some o => mret o
  | None => raise InvalidId
  end.

(** [db.<name>]: attribute access on the global, before any argument of
    the call that follows is evaluated. *)
Definition getattr_db (name : string) : M string :=
  fun s =>
    match s with
    | None => (Raise (no_attribute name), s)
    | Some _ => (Ok name, s)
    end.

(** ** Schemas

    A field of a request body as the validator meets it, after JSON
    decoding and the coercion to the field's declared type (which is
    pydantic's and is not modelled): absent from the body, given with a
    value of the declared type, or given with a value that cannot be
    coerced to it. For an [Optional] field, [Given None] is an explicit
    null. *)
Inductive field (A : Type) : Type :=
| Absent
| Given (a : A)
| Uncoercible.
Arguments Absent {A}.
Arguments Given {A} a.
Arguments Uncoercible {A}.

(** The outcome of validation: the model, or the report of every error. *)
Inductive validated (A : Type) : Type :=
| Valid (a : A)
| Errors (es : list error_details).
Arguments Valid {A} a.
Arguments Errors {A} es.

Definition errors_of {A} (v : validated A) : list error_details :=
  match v with
  | Valid _ => []
  | Errors es => es
  end.

(** Fields are validated one after the other and their errors collected. *)
Definition ap {A B} (f : validated (A -> B)) (x : validated A) : validated B :=
  match f, x with
  | Valid g, Valid a => Valid (g a)
  | _, _ => Errors (errors_of f ++ errors_of x)
  end.

Notation "f <*> x" := (ap f x) (at level 50, left associativity).

(** One field: [default = None] is a required field ([...]); [check] is the
    field's constraint. A default is taken as it is. *)
Definition Field {A} (name : string) (default : option A) (check : A -> bool)
    (f : field A) : validated A :=
  match f with
  | Absent =>
      match default with
      | Some a => Valid a
      | None => Errors [mkError [LKey name] missing]
      end
  | Given a =>
      if check a then Valid a else Errors [mkError [LKey name] greater_than_equal]
  | Uncoercible => Errors [mkError [LKey name] wrong_type]
  end.

Definition unconstrained {A} (_ : A) : bool := true.

(** [ge=0] on a float and [ge=n] on an int. *)
Definition ge_float (bound : float) (x : float) : bool := PrimFloat.leb bound x.
Definition ge_int (bound : Z) (x : Z) : bool := (bound <=? x)%Z.

(** Errors of a nested model are reported under the field that holds it. *)
Definition under {A} (l : loc_item) (v : validated A) : validated A :=
  match v with
  | Valid a => Valid a
  | Errors es => Errors (map (fun e => mkError (l :: loc e) (type_ e)) es)
  end.

(** A required field holding a nested model. *)
Definition Model {R A} (name : string) (validate : R -> validated A) (f : field R)
  : validated A :=
  match f with
  | Absent => Errors [mkError [LKey name] missing]
  | Given r => under (LKey name) (validate r)
  | Uncoercible => Errors [mkError [LKey name] wrong_type]
  end.

(** The elements of a [List[...]] of nested models, from index [i] on. *)
Fixpoint Items {R A} (validate : R -> validated A) (i : nat) (rs : list R)
  : validated (list A) :=
  match rs with
  | [] => Valid []
  | r :: rest => Valid cons <*> under (LIndex i) (validate r) <*> Items validate (S i) rest
  end.

(** What a [float] field of a model holds: a float, or the [int] of a
    default that was declared as one (defaults are not validated). *)
Inductive number : Type :=
| NFloat (x : float)
| NInt (n : Z).

(** [float(n)] *)
Definition float_of_int (n : Z) : float := SF2Prim (binary_normalize prec emax n 0 false).

(** The number as a float, as arithmetic and comparison see it. *)
Definition float_of_number (v : number) : float :=
  match v with
  | NFloat x => x
  | NInt n => float_of_int n
  end.

Coercion float_of_number : number >-> float.

Definition number_value (v : number) : value :=
  match v with
  | NFloat x => VFloat x
  | NInt n => VInt n
  end.

(** A given field seen at another type. *)
Definition field_map {A B} (g : A -> B) (f : field A) : field B :=
  match f with
  | Absent => Absent
  | Given a => Given (g a)
  | Uncoercible => Uncoercible
  end.

Definition optional_str (o : option string) : value :=
  match o with
  | Some s => VStr s
  | None => VNone
  end.

Definition VStrs (l : list string) : value := VList (VStr <$> l).

(** *** [main.py]: ProductIn *)
Module ProductIn.

Module Raw.
Record t : Type := mk {
  title : field string;
  description : field (option string);
  price : field float;
  currency : field string;
  category : field string;
  images : field (list string);
  materials : field (list string);
  stock : field Z;
  vendor : field (option string);
  artisanStory : field (option string)
}.
End Raw.

Record t : Type := mk {
  title : string;
  description : option string;
  price : float;
  currency : string;
  category : string;
  images : list string;
  materials : list string;
  stock : Z;
  vendor : option string;
  artisanStory : option string
}.

Definition validate (body : Raw.t) : validated t :=
  Valid mk
    <*> Field "title" None unconstrained (Raw.title body)
    <*> Field "description" (Some None) unconstrained (Raw.description body)
    <*> Field "price" None (ge_float 0) (Raw.price body)
    <*> Field "currency" (Some "INR") unconstrained (Raw.currency body)
    <*> Field "category" None unconstrained (Raw.category body)
    <*> Field "images" (Some []) unconstrained (Raw.images body)
    <*> Field "materials" (Some []) unconstrained (Raw.materials body)
    <*> Field "stock" (Some 0%Z) unconstrained (Raw.stock body)
    <*> Field "vendor" (Some None) unconstrained (Raw.vendor body)
    <*> Field "artisanStory" (Some None) unconstrained (Raw.artisanStory body).

Definition model_dump (p : t) : doc :=
  list_to_map [
    ("title", VStr (title p));
    ("description", optional_str (description p));
    ("price", VFloat (price p));
    ("currency", VStr (currency p));
    ("category", VStr (category p));
    ("images", VStrs (images p));
    ("materials", VStrs (materials p));
    ("stock", VInt (stock p));
    ("vendor", optional_str (vendor p));
    ("artisanStory", optional_str (artisanStory p))
  ].

End ProductIn.

(** *** [schemas.py]: Product, the schema of the same collection *)
Module Schemas.
Module Product.

Definition validate (body : ProductIn.Raw.t) : validated ProductIn.t :=
  Valid ProductIn.mk
    <*> Field "title" None unconstrained (ProductIn.Raw.title body)
    <*> Field "description" (Some None) unconstrained (ProductIn.Raw.description body)
    <*> Field "price" None (ge_float 0) (ProductIn.Raw.price body)
    <*> Field "currency" (Some "INR") unconstrained (ProductIn.Raw.currency body)
    <*> Field "category" None unconstrained (ProductIn.Raw.category body)
    <*> Field "images" (Some []) unconstrained (ProductIn.Raw.images body)
    <*> Field "materials" (Some []) unconstrained (ProductIn.Raw.materials body)
    <*> Field "stock" (Some 0%Z) (ge_int 0) (ProductIn.Raw.stock body)
    <*> Field "vendor" (Some None) unconstrained (ProductIn.Raw.vendor body)
    <*> Field "artisanStory" (Some None) unconstrained (ProductIn.Raw.artisanStory body).

End Product.
End Schemas.

(** *** [main.py]: OrderItem, Customer, OrderIn *)
Module OrderItem.

Module Raw.
Record t : Type := mk {
  productId : field string;
  title : field string;
  qty : field Z;
  unitPrice : field float
}.
End Raw.

Record t : Type := mk {
  productId : string;
  title : string;
  qty : Z;
  unitPrice : float
}.

Definition validate (body : Raw.t) : validated t :=
  Valid mk
    <*> Field "productId" None unconstrained (Raw.productId body)
    <*> Field "title" None unconstrained (Raw.title body)
    <*> Field "qty" None (ge_int 1) (Raw.qty body)
    <*> Field "unitPrice" None (ge_float 0) (Raw.unitPrice body).

Definition model_dump (i : t) : doc :=
  list_to_map [
    ("productId", VStr (productId i));
    ("title", VStr (title i));
    ("qty", VInt (qty i));
    ("unitPrice", VFloat (unitPrice i))
  ].

End OrderItem.

Module Customer.

Module Raw.
Record t : Type := mk {
  name : field string;
  email : field (option string);
  phone : field (option string);
  address : field (option string)
}.
End Raw.

Record t : Type := mk {
  name : string;
  email : option string;
  phone : option string;
  address : option string
}.

Definition validate (body : Raw.t) : validated t :=
  Valid mk
    <*> Field "name" None unconstrained (Raw.name body)
    <*> Field "email" (Some None) unconstrained (Raw.email body)
    <*> Field "phone" (Some None) unconstrained (Raw.phone body)
    <*> Field "address" (Some None) unconstrained (Raw.address body).

Definition model_dump (c : t) : doc :=
  list_to_map [
    ("name", VStr (name c));
    ("email", optional_str (email c));
    ("phone", optional_str (phone c));
    ("address", optional_str (address c))
  ].

End Customer.

Module OrderIn.

Module Raw.
Record t : Type := mk {
  customer : field Customer.Raw.t;
  items : field (list OrderItem.Raw.t);
  subtotal : field float;
  shipping : field float;
  total : field float;
  status : field string
}.
End Raw.

Record t : Type := mk {
  customer : Customer.t;
  items : list OrderItem.t;
  subtotal : float;
  shipping : number;
  total : float;
  status : string
}.

(** A [shipping] that is given is a float; left out, it is the integer
    [0] that the source declares as its default. *)
Definition validate (body : Raw.t) : validated t :=
  Valid mk
    <*> Model "customer" Customer.validate (Raw.customer body)
    <*> Model "items" (Items OrderItem.validate 0) (Raw.items body)
    <*> Field "subtotal" None unconstrained (Raw.subtotal body)
    <*> Field "shipping" (Some (NInt 0)) unconstrained (field_map NFloat (Raw.shipping body))
    <*> Field "total" None unconstrained (Raw.total body)
    <*> Field "status" (Some "received") unconstrained (Raw.status body).

Definition model_dump (o : t) : doc :=
  list_to_map [
    ("customer", VDict (Customer.model_dump (customer o)));
    ("items", VList ((fun i => VDict (OrderItem.model_dump i)) <$> items o));
    ("subtotal", VFloat (subtotal o));
    ("shipping", number_value (shipping o));
    ("total", VFloat (total o));
    ("status", VStr (status o))
  ].

End OrderIn.

(** ** Routes of [main.py] *)

Definition not_configured : exn := HTTPException 500 "Database not configured".
Definition not_found : exn := HTTPException 404 "Product not found".

(** [GET /] *)
Definition read_root : doc := {[ "message" := VStr "Flames.Blue API running" ]}.

(** [GET /api/products] *)
Definition list_products `{Runtime} (category q : option string) (limit : Z)
  : M (list (option doc)) :=
  db ← get_db;
  match db with
  | None => raise not_configured
  | Some _ =>
      let flt : query := ∅ in
      let flt :=
        match category with
        | Some c => if truthy category then <["category" := EqStr c]> flt else flt
        | None => flt
        end in
      let flt :=
        match q with
        | Some p => if truthy q then <["title" := Regex p "i"]> flt else flt
        | None => flt
        end in
      product ← getattr_db "product";
      items ← find product flt (Z.min limit 200);
      mret ((fun x => serialize_doc (Some x)) <$> items)
  end.

(** The same with [limit] left to its default, [limit: int = 100]. *)
Definition get_api_products `{Runtime} (category q : option string) (limit : option Z)
  : M (list (option doc)) :=
  list_products category q (default 100%Z limit).

(** [GET /api/products/{product_id}] *)
Definition get_product `{Runtime} (product_id : string) : M (option doc) :=
  db ← get_db;
  match db with
  | None => raise not_configured
  | Some _ =>
      obj ← try_except
              (product ← getattr_db "product";
               oid ← ObjectId_ product_id;
               find_one product {[ "_id" := EqObjectId oid ]})
              (fun _ => mret None);
      if not_ obj then raise not_found else mret (serialize_doc obj)
  end.

(** [create_product], the body of [POST /api/products], on a validated
    payload. *)
Definition create_product `{Runtime} (new_id : ObjectId) (payload : ProductIn.t)
  : M (option doc) :=
  prod_id ← create_document new_id "product" (ProductIn.model_dump payload);
  product ← getattr_db "product";
  oid ← ObjectId_ prod_id;
  obj ← find_one product {[ "_id" := EqObjectId oid ]};
  mret (serialize_doc obj).

(** [create_order], the body of [POST /api/orders], on a validated payload. *)
Definition create_order `{Runtime} (new_id : ObjectId) (payload : OrderIn.t)
  : M (option doc) :=
  order_id ← create_document new_id "order" (OrderIn.model_dump payload);
  order ← getattr_db "order";
  oid ← ObjectId_ order_id;
  obj ← find_one order {[ "_id" := EqObjectId oid ]};
  mret (serialize_doc obj).

(** The routes with a typed body: the framework validates the body
    against the parameter's model and calls the function only with a valid
    payload; otherwise it answers with the validation report. *)
Definition post_api_products `{Runtime} (new_id : ObjectId) (body : ProductIn.Raw.t)
  : M (option doc) :=
  match ProductIn.validate body with
  | Valid payload => create_product new_id payload
  | Errors es => raise (RequestValidationError es)
  end.

Definition post_api_orders `{Runtime} (new_id : ObjectId) (body : OrderIn.Raw.t)
  : M (option doc) :=
  match OrderIn.validate body with
  | Valid payload => create_order new_id payload
  | Errors es => raise (RequestValidationError es)
  end.

(** The status line the framework answers with. *)
Definition status_of {A} (r : result A) : Z :=
  match r with
  | Ok _ => 200
  | Raise (HTTPException code _) => code
  | Raise (RequestValidationError _) => 422
  | Raise _ => 500
  end.

(** [os.getenv(name)] over the process environment. *)
Definition getenv (environ : gmap string string) (name : string) : option string :=
  environ !! name.

(** [x or y] on an optional string. *)
Definition or_ (x : option string) (y : string) : string :=
  match x with
  | Some s => if truthy x then s else y
  | None => y
  end.

(** A byte that continues a UTF-8 sequence ([10xxxxxx]). *)
Definition is_continuation (c : ascii) : bool :=
  let n := N_of_ascii c in ((128 <=? n) && (n <? 192))%N.

(** [len(s)]: the number of characters, that is of UTF-8 sequences. *)
Fixpoint char_count (s : string) : nat :=
  match s with
  | EmptyString => 0
  | String c rest => (if is_continuation c then 0 else 1) + char_count rest
  end.

(** [s[:n]]: the first [n] characters, each with all of its bytes. *)
Fixpoint upto (n : nat) (s : string) : string :=
  match s with
  | EmptyString => EmptyString
  | String c rest =>
      if is_continuation c then String c (upto n rest)
      else match n with
           | 0 => EmptyString
           | S n' => String c (upto n' rest)
           end
  end.

(** [GET /test]. Nothing in the outer [try] raises outside the inner one;
    the outer handler is kept as the source has it. *)
Definition test_database (environ : gmap string string) : M doc :=
  let response : doc :=
    list_to_map [
      ("backend", VStr "✅ Running");
      ("database", VStr "❌ Not Available");
      ("database_url", VNone);
      ("database_name", VNone);
      ("connection_status", VStr "Not Connected");
      ("collections", VList [])
    ] in
  try_except
    (db ← get_db;
     match db with
     | Some _ =>
         let response := <["database" := VStr "✅ Available"]> response in
         let response :=
           <["database_url" :=
               VStr (if truthy (getenv environ "DATABASE_URL")
                     then "✅ Set" else "❌ Not Set")]> response in
         let response :=
           <["database_name" :=
               VStr (or_ (getenv environ "DATABASE_NAME") "❌ Not Set")]> response in
         try_except
           (cols ← list_collection_names;
            let response := <["collections" := VStrs cols]> response in
            let response := <["database" := VStr "✅ Connected & Working"]> response in
            let response := <["connection_status" := VStr "Connected"]> response in
            mret response)
           (fun e =>
              mret (<["database" :=
                        VStr ("⚠️ Connected but error: " +:+ upto 80 (exn_str e))]>
                      response))
     | None => mret (<["database" := VStr "❌ Database not initialized"]> response)
     end)
    (fun e => mret (<["database" := VStr ("❌ Error: " +:+ upto 80 (exn_str e))]> response)).

(** ** Sample data *)

(** A runtime to run the handlers on the samples: a stand-in [repr], and
    an engine that searches for the pattern as a literal substring. *)
Fixpoint occurs (p s : string) : bool :=
  String.prefix p s ||
  match s with
  | EmptyString => false
  | String _ rest => occurs p rest
  end.

Definition sample_runtime : Runtime :=
  {| py_repr := fun _ => "<value>";
     regex_search := fun p _ => Some (occurs p) |}.

Definition sample_id : ObjectId :=
  Bson.mkObjectId
    (Byte.x50 :: Byte.x7f :: Byte.x1f :: Byte.x77 :: Byte.xbc :: Byte.xf8 ::
     Byte.x6c :: Byte.xd7 :: Byte.x99 :: Byte.x43 :: Byte.x90 :: Byte.x11 :: []).

Definition clay_pot_body : ProductIn.Raw.t :=
  {| ProductIn.Raw.title := Given "Clay Pot";
     ProductIn.Raw.description := Absent;
     ProductIn.Raw.price := Given 250%float;
     ProductIn.Raw.currency := Absent;
     ProductIn.Raw.category := Given "pottery";
     ProductIn.Raw.images := Absent;
     ProductIn.Raw.materials := Absent;
     ProductIn.Raw.stock := Absent;
     ProductIn.Raw.vendor := Absent;
     ProductIn.Raw.artisanStory := Absent |}.

Definition clay_pot : ProductIn.t :=
  {| ProductIn.title := "Clay Pot";
     ProductIn.description := None;
     ProductIn.price := 250%float;
     ProductIn.currency := "INR";
     ProductIn.category := "pottery";
     ProductIn.images := [];
     ProductIn.materials := [];
     ProductIn.stock := 0;
     ProductIn.vendor := None;
     ProductIn.artisanStory := None |}.

Definition empty_store : Database := mkDatabase ∅ None ∅.

(** A store that stamps what is inserted. *)
Definition stamping_store : Database :=
  mkDatabase ∅ None {[ "created_at" := VStr "2024-05-01T10:00:00Z" ]}.

Definition negative_stock_body : ProductIn.Raw.t :=
  {| ProductIn.Raw.title := Given "Clay Pot";
     ProductIn.Raw.description := Absent;
     ProductIn.Raw.price := Given 250%float;
     ProductIn.Raw.currency := Absent;
     ProductIn.Raw.category := Given "pottery";
     ProductIn.Raw.images := Absent;
     ProductIn.Raw.materials := Absent;
     ProductIn.Raw.stock := Given (-5)%Z;
     ProductIn.Raw.vendor := Absent;
     ProductIn.Raw.artisanStory := Absent |}.

Definition negative_price_body : ProductIn.Raw.t :=
  {| ProductIn.Raw.title := Given "Clay Pot";
     ProductIn.Raw.description := Absent;
     ProductIn.Raw.price := Given (-1)%float;
     ProductIn.Raw.currency := Absent;
     ProductIn.Raw.category := Given "pottery";
     ProductIn.Raw.images := Absent;
     ProductIn.Raw.materials := Absent;
     ProductIn.Raw.stock := Absent;
     ProductIn.Raw.vendor := Absent;
     ProductIn.Raw.artisanStory := Absent |}.

Definition asha : Customer.Raw.t :=
  {| Customer.Raw.name := Given "Asha";
     Customer.Raw.email := Absent;
     Customer.Raw.phone := Absent;
     Customer.Raw.address := Absent |}.

(** An order with no items at all. *)
Definition empty_order_body : OrderIn.Raw.t :=
  {| OrderIn.Raw.customer := Given asha;
     OrderIn.Raw.items := Given [];
     OrderIn.Raw.subtotal := Given 0%float;
     OrderIn.Raw.shipping := Absent;
     OrderIn.Raw.total := Given 0%float;
     OrderIn.Raw.status := Absent |}.

(** A store that never failed and holds 201 products. *)
Definition numbered_id (n : nat) : ObjectId :=
  Bson.mkObjectId (replicate 11 Byte.x00 ++ [default Byte.x00 (Byte.of_nat n)]).

Definition numbered_product (n : nat) : doc :=
  <["_id" := VObjectId (numbered_id n)]> (ProductIn.model_dump clay_pot).

Definition crowded_store : Database :=
  mkDatabase {[ "product" := numbered_product <$> seq 0 201 ]} None ∅.

(** A store with one product of each of two categories. *)
Definition two_category_store : Database :=
  mkDatabase
    {[ "product" :=
         [ <["_id" := VObjectId (numbered_id 1)]> (ProductIn.model_dump clay_pot);
           <["category" := VStr "textile"]> (numbered_product 2) ] ]}
    None ∅.

(** Two environments that set the same variables, the database under
    different names. *)
Definition shop_environ : gmap string string :=
  {[ "DATABASE_URL" := "mongodb://localhost:27017"; "DATABASE_NAME" := "shop" ]}.

Definition prod_environ : gmap string string :=
  {[ "DATABASE_URL" := "mongodb://localhost:27017"; "DATABASE_NAME" := "prod" ]}.

(** The same name behind two different connection strings. *)
Definition other_url_environ : gmap string string :=
  {[ "DATABASE_URL" := "mongodb://db.internal:27017"; "DATABASE_NAME" := "shop" ]}.

(** ** Predicates of the statements *)

Definition accepted {A} (v : validated A) : Prop := exists a, v = Valid a.
Definition rejected {A} (v : validated A) : Prop := exists es, v = Errors es.

(** A validation that failed, with at least one error to report. *)
Definition failed {A} (v : validated A) : Prop := exists es, v = Errors es /\ es <> [].

(** A field that is in the body, of its declared type, and satisfies [P]. *)
Definition supplied {A} (P : A -> Prop) (f : field A) : Prop :=
  exists a, f = Given a /\ P a.

(** A field that is left out or of its declared type. *)
Definition well_typed {A} (f : field A) : Prop := f <> Uncoercible.

Definition customer_acceptable (c : Customer.Raw.t) : Prop :=
  supplied (fun _ => True) (Customer.Raw.name c) /\
  well_typed (Customer.Raw.email c) /\
  well_typed (Customer.Raw.phone c) /\
  well_typed (Customer.Raw.address c).

Definition item_acceptable (i : OrderItem.Raw.t) : Prop :=
  supplied (fun _ => True) (OrderItem.Raw.productId i) /\
  supplied (fun _ => True) (OrderItem.Raw.title i) /\
  supplied (fun n => (1 <= n)%Z) (OrderItem.Raw.qty i) /\
  supplied (fun x => PrimFloat.leb 0 x = true) (OrderItem.Raw.unitPrice i).

Definition order_acceptable (o : OrderIn.Raw.t) : Prop :=
  supplied customer_acceptable (OrderIn.Raw.customer o) /\
  supplied (Forall item_acceptable) (OrderIn.Raw.items o) /\
  supplied (fun _ => True) (OrderIn.Raw.subtotal o) /\
  well_typed (OrderIn.Raw.shipping o) /\
  supplied (fun _ => True) (OrderIn.Raw.total o) /\
  well_typed (OrderIn.Raw.status o).

(** ** Further predicates and samples *)

(** [s.upper()] on the ASCII letters. *)
Definition ascii_upper (c : ascii) : ascii :=
  let n := N_of_ascii c in
  if ((97 <=? n) && (n <=? 122))%N then ascii_of_N (n - 32) else c.

Fixpoint upper (s : string) : string :=
  match s with
  | EmptyString => EmptyString
  | String c rest => String (ascii_upper c) (upper rest)
  end.

(** What product validation lets through, field by field. *)
Definition product_acceptable (b : ProductIn.Raw.t) : Prop :=
  supplied (fun _ => True) (ProductIn.Raw.title b) /\
  well_typed (ProductIn.Raw.description b) /\
  supplied (fun x => PrimFloat.leb 0 x = true) (ProductIn.Raw.price b) /\
  well_typed (ProductIn.Raw.currency b) /\
  supplied (fun _ => True) (ProductIn.Raw.category b) /\
  well_typed (ProductIn.Raw.images b) /\
  well_typed (ProductIn.Raw.materials b) /\
  well_typed (ProductIn.Raw.stock b) /\
  well_typed (ProductIn.Raw.vendor b) /\
  well_typed (ProductIn.Raw.artisanStory b).

(** The value a field ends up with: the one given, or the default. *)
Definition value_of {A} (default : A) (f : field A) (a : A) : Prop :=
  f = Given a \/ (f = Absent /\ a = default).

(** What an accepted product holds, field by field. *)
Definition product_of (b : ProductIn.Raw.t) (p : ProductIn.t) : Prop :=
  ProductIn.Raw.title b = Given (ProductIn.title p) /\
  value_of None (ProductIn.Raw.description b) (ProductIn.description p) /\
  ProductIn.Raw.price b = Given (ProductIn.price p) /\
  PrimFloat.leb 0 (ProductIn.price p) = true /\
  value_of "INR" (ProductIn.Raw.currency b) (ProductIn.currency p) /\
  ProductIn.Raw.category b = Given (ProductIn.category p) /\
  value_of [] (ProductIn.Raw.images b) (ProductIn.images p) /\
  value_of [] (ProductIn.Raw.materials b) (ProductIn.materials p) /\
  value_of 0%Z (ProductIn.Raw.stock b) (ProductIn.stock p) /\
  value_of None (ProductIn.Raw.vendor b) (ProductIn.vendor p) /\
  value_of None (ProductIn.Raw.artisanStory b) (ProductIn.artisanStory p).

(** An order of two clay pots, with totals that do not add up. *)
Definition pots_item_body : OrderItem.Raw.t :=
  {| OrderItem.Raw.productId := Given "507f1f77bcf86cd799439011";
     OrderItem.Raw.title := Given "Clay Pot";
     OrderItem.Raw.qty := Given 2%Z;
     OrderItem.Raw.unitPrice := Given 250%float |}.

Definition pots_order_body : OrderIn.Raw.t :=
  {| OrderIn.Raw.customer := Given asha;
     OrderIn.Raw.items := Given [pots_item_body];
     OrderIn.Raw.subtotal := Given 1%float;
     OrderIn.Raw.shipping := Absent;
     OrderIn.Raw.total := Given 2%float;
     OrderIn.Raw.status := Absent |}.

Definition pots_order : OrderIn.t :=
  {| OrderIn.customer :=
       {| Customer.name := "Asha"; Customer.email := None;
          Customer.phone := None; Customer.address := None |};
     OrderIn.items :=
       [ {| OrderItem.productId := "507f1f77bcf86cd799439011";
            OrderItem.title := "Clay Pot";
            OrderItem.qty := 2;
            OrderItem.unitPrice := 250%float |} ];
     OrderIn.subtotal := 1%float;
     OrderIn.shipping := NInt 0;
     OrderIn.total := 2%float;
     OrderIn.status := "received" |}.

(** What an accepted item holds. *)
Definition item_of (r : OrderItem.Raw.t) (i : OrderItem.t) : Prop :=
  OrderItem.Raw.productId r = Given (OrderItem.productId i) /\
  OrderItem.Raw.title r = Given (OrderItem.title i) /\
  OrderItem.Raw.qty r = Given (OrderItem.qty i) /\
  (1 <= OrderItem.qty i)%Z /\
  OrderItem.Raw.unitPrice r = Given (OrderItem.unitPrice i) /\
  PrimFloat.leb 0 (OrderItem.unitPrice i) = true.

(** The filter [list_products] hands to the store, as the handler builds
    it from its two optional arguments. *)
Definition products_filter (category q : option string) : query :=
  let flt : query := ∅ in
  let flt :=
    match category with
    | Some c => if truthy category then <["category" := EqStr c]> flt else flt
    | None => flt
    end in
  match q with
  | Some p => if truthy q then <["title" := Regex p "i"]> flt else flt
  | None => flt
  end.

(** A database with one more document at the end of a collection. *)
Definition insert_into (db : Database) (name : string) (d : doc) : Database :=
  mkDatabase (<[name := collection db name ++ [d]]> (collections db)) None (assigned db).

(** A document under its identifier, as stored and as answered. *)
Definition with_id (new_id : ObjectId) (data : doc) : doc :=
  <["_id" := VObjectId new_id]> data.

Definition with_public_id (new_id : ObjectId) (data : doc) : doc :=
  <["id" := VStr (Bson.to_str new_id)]> data.

(** A product titled "Clay Pot" in the textile category, and one whose
    title is not a string. *)
Definition mixed_store : Database :=
  mkDatabase
    {[ "product" :=
         [ numbered_product 1;
           <["category" := VStr "textile"]> (numbered_product 2);
           <["title" := VStr "Brass Lamp"]> (numbered_product 3);
           <["title" := VInt 5]> (numbered_product 4) ] ]}
    None ∅.

(** A runtime whose engine does not compile the pattern "(". *)
Definition picky_runtime : Runtime :=
  {| py_repr := fun _ => "<value>";
     regex_search := fun p _ => if String.eqb p "(" then None else Some (occurs p) |}.

(** An error text of 81 characters, each of two bytes. *)
Fixpoint repeat_string (n : nat) (s : string) : string :=
  match n with
  | 0 => EmptyString
  | S n' => s +:+ repeat_string n' s
  end.

Definition accented_error : string := repeat_string 81 "é".


(** * Properties *)

(** ** Identifiers: rendering and parsing *)

Lemma fromhex_hexlify (bs : list Byte.byte) : Bson.fromhex (Bson.hexlify bs) = Some bs.
Proof.
  induction bs as [|b bs IH]; [reflexivity|].
  cbn [Bson.hexlify Bson.fromhex]. rewrite IH. clear IH.
  destruct b; reflexivity.
Qed.

Lemma length_hexlify (bs : list Byte.byte) :
  String.length (Bson.hexlify bs) = (2 * List.length bs)%nat.
Proof. induction bs as [|b bs IH]; simpl; [reflexivity|]. rewrite IH. lia. Qed.

(** Parsing the rendering of a generated id gives the id back. *)
Lemma of_str_to_str (o : ObjectId) : Bson.well_formed o -> Bson.of_str (Bson.to_str o) = Some o.
Proof.
  destruct o as [bs]. unfold Bson.well_formed, Bson.of_str, Bson.to_str. simpl. intros Hlen.
  rewrite length_hexlify, Hlen. simpl. rewrite fromhex_hexlify. reflexivity.
Qed.


(** ** Floats: what [ge=0] rejects *)

Lemma negative_not_ge_0 (x : float) : PrimFloat.ltb x 0 = true -> ge_float 0 x = false.
Proof.
  unfold ge_float. rewrite ltb_spec, leb_spec.
  unfold SFltb, SFleb. replace (Prim2SF 0) with (S754_zero false) by reflexivity.
  destruct (Prim2SF x) as [s|s| |s m e]; simpl; try discriminate; destruct s; simpl; congruence.
Qed.

(** ** The store: filters *)

Section Store.
Context `{Runtime}.

Lemma holds_EqStr (s : string) (v : option value) :
  holds (EqStr s) v = true <-> v = Some (VStr s).
Proof.
  destruct v as [[]|]; simpl; try (split; [discriminate|congruence]).
  rewrite String.eqb_eq. split; congruence.
Qed.

Lemma holds_EqObjectId (o : ObjectId) (v : option value) :
  holds (EqObjectId o) v = true <-> v = Some (VObjectId o).
Proof.
  destruct v as [[]|]; simpl; try (split; [discriminate|congruence]).
  rewrite bool_decide_eq_true. split; congruence.
Qed.

Lemma matches_empty (d : doc) : matches ∅ d = true.
Proof. unfold matches. apply bool_decide_eq_true, map_Forall_empty. Qed.

Lemma matches_singleton (k : string) (c : condition) (d : doc) :
  matches {[ k := c ]} d = holds c (d !! k).
Proof.
  unfold matches. destruct (holds c (d !! k)) eqn:E.
  - apply bool_decide_eq_true, map_Forall_singleton, E.
  - apply bool_decide_eq_false. rewrite map_Forall_singleton. congruence.
Qed.

Lemma query_compiles_empty : query_compiles ∅ = true.
Proof. unfold query_compiles. apply bool_decide_eq_true, map_Forall_empty. Qed.

Lemma query_compiles_singleton (k : string) (c : condition) :
  condition_compiles c -> query_compiles {[ k := c ]} = true.
Proof.
  intros Hc. unfold query_compiles. apply bool_decide_eq_true, map_Forall_singleton, Hc.
Qed.

(** A filter that matches no document of a list selects nothing. *)
Lemma filter_none {A} (f : A -> bool) (l : list A) :
  (forall x, x ∈ l -> f x = false) -> List.filter f l = [].
Proof.
  induction l as [|x l IH]; intros Hall; [reflexivity|]. simpl.
  rewrite (Hall x) by constructor. apply IH. intros y Hy. apply Hall. by constructor.
Qed.

Lemma find_one_by_id (name : string) (o : ObjectId) (db : Database) :
  fault db = None ->
  find_one name {[ "_id" := EqObjectId o ]} (Some db)
  = (Ok (head (List.filter (fun d => holds (EqObjectId o) (d !! "_id")) (collection db name))),
     Some db).
Proof.
  intros Hf. unfold find_one. rewrite Hf, query_compiles_singleton by exact I.
  do 3 f_equal. apply List.filter_ext. intros d. apply matches_singleton.
Qed.

(** Looking an id up in a collection that does not hold it finds nothing,
    unless the store call fails. *)
Lemma find_one_absent (o : ObjectId) (db : Database) :
  (forall d, d ∈ collection db "product" -> d !! "_id" <> Some (VObjectId o)) ->
  find_one "product" {[ "_id" := EqObjectId o ]} (Some db) = (Ok None, Some db) \/
  exists e, find_one "product" {[ "_id" := EqObjectId o ]} (Some db) = (Raise e, Some db).
Proof.
  intros Habsent. destruct (fault db) as [msg|] eqn:Hf.
  - right. exists (PyMongoError msg). unfold find_one. by rewrite Hf.
  - left. rewrite find_one_by_id by done. rewrite filter_none; [reflexivity|].
    intros d Hd. destruct (holds (EqObjectId o) (d !! "_id")) eqn:E; [|done].
    apply holds_EqObjectId in E. by apply Habsent in Hd.
Qed.

End Store.

(** ** Serialization *)

Section Serialization.
Context `{Runtime}.

Lemma serialize_doc_with_id (d : doc) (v : value) :
  d !! "_id" = Some v ->
  serialize_doc (Some d) = Some (<["id" := VStr (py_str v)]> (delete "_id" d)).
Proof.
  intros Hid. unfold serialize_doc. destruct (decide (d = ∅)) as [->|_].
  - rewrite lookup_empty in Hid. discriminate.
  - by rewrite Hid.
Qed.

(** C8: the public representation of a persisted record (a document whose
    [_id] is a store identifier) has a string field [id] holding the
    rendered identifier, has no [_id] field, and agrees with the record on
    every other field. *)
Theorem serialize_doc_public_id (d : doc) (o : ObjectId) :
  d !! "_id" = Some (VObjectId o) ->
  exists out : doc,
    serialize_doc (Some d) = Some out /\
    out !! "id" = Some (VStr (Bson.to_str o)) /\
    out !! "_id" = None /\
    forall k, k <> "id" -> k <> "_id" -> out !! k = d !! k.
Proof.
  intros Hid. eexists. split; [by apply serialize_doc_with_id|]. simpl.
  split; [by rewrite lookup_insert_eq|].
  split.
  - rewrite lookup_insert_ne by done. apply lookup_delete_eq.
  - intros k Hk1 Hk2. rewrite lookup_insert_ne by done. by rewrite lookup_delete_ne.
Qed.

End Serialization.

(** The scenario of the specification: a clay pot posted with title,
    price and category only comes back with the defaults and its id. *)
Example clay_pot_scenario :
  ProductIn.validate clay_pot_body = Valid clay_pot /\
  match @post_api_products sample_runtime sample_id clay_pot_body (Some empty_store) with
  | (Ok (Some out), Some db') =>
      out !! "currency" = Some (VStr "INR") /\
      out !! "stock" = Some (VInt 0) /\
      out !! "images" = Some (VList []) /\
      out !! "id" = Some (VStr "507f1f77bcf86cd799439011") /\
      List.length (collection db' "product") = 1%nat
  | _ => False
  end.
Proof. split; [reflexivity|]. vm_compute. by split_and!. Qed.

(** ** Looking a product up *)

Section GetProduct.
Context `{Runtime}.

Lemma get_product_absent (db : Database) (product_id : string) :
  match Bson.of_str product_id with
  | Some o => forall d, d ∈ collection db "product" -> d !! "_id" <> Some (VObjectId o)
  | None => True
  end ->
  get_product product_id (Some db) = (Raise not_found, Some db).
Proof.
  intros Habsent.
  unfold get_product, mbind, M_bind, get_db, try_except, getattr_db, ObjectId_.
  destruct (Bson.of_str product_id) as [o|]; [|reflexivity].
  destruct (find_one_absent o db Habsent) as [Hnone|[e Hraise]].
  - cbn -[find_one]. by rewrite Hnone.
  - cbn -[find_one]. by rewrite Hraise.
Qed.

(** A product found is returned serialized, and the store is not touched. *)
Lemma get_product_serialized (db : Database) (product_id : string) (r : option doc)
    (s' : handle) :
  get_product product_id (Some db) = (Ok r, s') ->
  s' = Some db /\
  exists d, d ∈ collection db "product" /\ r = serialize_doc (Some d).
Proof.
  unfold get_product, mbind, M_bind, get_db, try_except, getattr_db, ObjectId_, find_one.
  destruct (Bson.of_str product_id) as [o|]; [|discriminate].
  cbn -[serialize_doc collection query_compiles matches not_].
  destruct (fault db); [discriminate|].
  destruct (query_compiles _); [|discriminate].
  destruct (head _) as [d|] eqn:Hhead; [|discriminate].
  cbn -[serialize_doc collection query_compiles matches not_].
  destruct (not_ (Some d)); [discriminate|]. intros [= <- <-]. split; [done|].
  exists d. split; [|done].
  apply head_Some_elem_of in Hhead.
  apply list_elem_of_In, List.filter_In in Hhead as [Hin _]. by apply list_elem_of_In.
Qed.

(** C5: with a store configured, [get_product] answers 404 "Product not
    found" for an identifier that does not parse and for one that parses
    but names no record, and the two outcomes are the same; without a store
    both are the same 500. *)
Theorem get_product_not_found (db : Database) (malformed absent : string) (o : ObjectId) :
  Bson.of_str malformed = None ->
  Bson.of_str absent = Some o ->
  (forall d, d ∈ collection db "product" -> d !! "_id" <> Some (VObjectId o)) ->
  get_product malformed (Some db) = (Raise (HTTPException 404 "Product not found"), Some db) /\
  get_product absent (Some db) = (Raise (HTTPException 404 "Product not found"), Some db) /\
  get_product malformed None = get_product absent None.
Proof.
  intros Hbad Hgood Habsent. split; [|split].
  - apply get_product_absent. by rewrite Hbad.
  - apply get_product_absent. by rewrite Hgood.
  - reflexivity.
Qed.

End GetProduct.

(** ** Creating a product *)

Section CreateProduct.
Context `{Runtime}.


Lemma collection_written (db : Database) (name : string) (docs : list doc) :
  collection (mkDatabase (<[name := docs]> (collections db)) None (assigned db)) name = docs.
Proof. unfold collection. simpl. by rewrite lookup_insert_eq. Qed.

Lemma collection_untouched (db : Database) (name other : string) (docs : list doc) :
  other <> name ->
  collection (mkDatabase (<[name := docs]> (collections db)) None (assigned db)) other
  = collection db other.
Proof. intros Hne. unfold collection. simpl. by rewrite lookup_insert_ne. Qed.



End CreateProduct.

(** ** Validation *)

Lemma rejected_iff_not_accepted {A} (v : validated A) : rejected v <-> ~ accepted v.
Proof.
  unfold rejected, accepted. destruct v as [a|es]; split.
  - intros [es Hes]. discriminate.
  - intros Hn. exfalso. apply Hn. by exists a.
  - intros _ [a Ha]. discriminate.
  - intros _. by exists es.
Qed.

Lemma failed_rejected {A} (v : validated A) : failed v -> rejected v.
Proof. intros (es & Hes & _). by exists es. Qed.

Lemma ap_accepted {A B} (f : validated (A -> B)) (x : validated A) :
  accepted (f <*> x) <-> accepted f /\ accepted x.
Proof.
  unfold accepted. destruct f as [g|es], x as [a|es']; simpl; split.
  all: try (intros [b Hb]; discriminate).
  all: try (intros [[g' Hg] [a' Ha]]; discriminate).
  - intros _. split; eauto.
  - intros _. eauto.
Qed.

Lemma ap_failed_l {A B} (f : validated (A -> B)) (x : validated A) :
  failed f -> failed (f <*> x).
Proof.
  intros (es & -> & Hne). destruct x as [a|es']; simpl.
  - exists (es ++ []). split; [done|]. by destruct es.
  - exists (es ++ es'). split; [done|]. by destruct es.
Qed.

Lemma ap_failed_r {A B} (f : validated (A -> B)) (x : validated A) :
  failed x -> failed (f <*> x).
Proof.
  intros (es & -> & Hne). destruct f as [g|es']; simpl.
  - by exists es.
  - exists (es' ++ es). split; [done|]. intros Happ. by apply app_eq_nil in Happ as [_ ?].
Qed.

Lemma Field_absent_failed {A} (name : string) (check : A -> bool) :
  failed (Field name None check Absent).
Proof. eexists. split; [reflexivity|done]. Qed.

Lemma Field_check_failed {A} (name : string) (default : option A) (check : A -> bool) (a : A) :
  check a = false -> failed (Field name default check (Given a)).
Proof. intros Hc. simpl. rewrite Hc. eexists. split; [reflexivity|done]. Qed.

Lemma Field_required_accepted {A} (name : string) (check : A -> bool) (f : field A) :
  accepted (Field name None check f) <-> supplied (fun a => check a = true) f.
Proof.
  unfold accepted, supplied. destruct f as [|a|]; simpl.
  - split; [intros [? ?]|intros (? & ? & _)]; discriminate.
  - destruct (check a) eqn:E; split.
    + intros _. by exists a.
    + intros _. by exists a.
    + intros [? ?]. discriminate.
    + intros (a' & [= <-] & Hc). congruence.
  - split; [intros [? ?]|intros (? & ? & _)]; discriminate.
Qed.

Lemma Field_default_accepted {A} (name : string) (d : A) (f : field A) :
  accepted (Field name (Some d) unconstrained f) <-> well_typed f.
Proof.
  unfold accepted, well_typed. destruct f as [|a|]; simpl; split; try done; eauto.
  intros [? ?]. discriminate.
Qed.

Lemma well_typed_field_map {A B} (g : A -> B) (f : field A) :
  well_typed (field_map g f) <-> well_typed f.
Proof. unfold well_typed. by destruct f. Qed.

Lemma under_accepted {A} (l : loc_item) (v : validated A) : accepted (under l v) <-> accepted v.
Proof.
  unfold accepted. destruct v; simpl; split; eauto; intros [? ?]; discriminate.
Qed.

Lemma Model_accepted {R A} (name : string) (validate : R -> validated A) (f : field R) :
  accepted (Model name validate f) <-> supplied (fun r => accepted (validate r)) f.
Proof.
  unfold supplied. destruct f as [|r|]; simpl.
  - split; [intros [? ?]|intros (? & ? & _)]; discriminate.
  - rewrite under_accepted. split; [by exists r|]. by intros (? & [= <-] & ?).
  - split; [intros [? ?]|intros (? & ? & _)]; discriminate.
Qed.

Lemma Items_accepted {R A} (validate : R -> validated A) (i : nat) (rs : list R) :
  accepted (Items validate i rs) <-> Forall (fun r => accepted (validate r)) rs.
Proof.
  revert i. induction rs as [|r rs IH]; intros i; cbn [Items].
  - split; [constructor|]. intros _. by eexists.
  - rewrite !ap_accepted, under_accepted, IH, Forall_cons.
    split; [tauto|]. intros [? ?]. repeat split; try done. by eexists.
Qed.

Lemma supplied_iff {A} (P Q : A -> Prop) (f : field A) :
  (forall a, P a <-> Q a) -> supplied P f <-> supplied Q f.
Proof. intros HPQ. unfold supplied. split; intros (a & ? & ?); exists a; split; try done; by apply HPQ. Qed.

Lemma Customer_accepted (c : Customer.Raw.t) :
  accepted (Customer.validate c) <-> customer_acceptable c.
Proof.
  unfold Customer.validate, customer_acceptable.
  rewrite !ap_accepted, Field_required_accepted, !Field_default_accepted.
  rewrite (supplied_iff (fun _ => unconstrained _ = true) (fun _ => True)) by done.
  split; [tauto|]. intros ?. split_and!; try tauto. by eexists.
Qed.

Lemma OrderItem_accepted (i : OrderItem.Raw.t) :
  accepted (OrderItem.validate i) <-> item_acceptable i.
Proof.
  unfold OrderItem.validate, item_acceptable.
  rewrite !ap_accepted, !Field_required_accepted.
  rewrite !(supplied_iff (fun _ => unconstrained _ = true) (fun _ => True)) by done.
  rewrite (supplied_iff (fun a => ge_int 1 a = true) (fun n => (1 <= n)%Z))
    by (intros a; unfold ge_int; apply Z.leb_le).
  unfold ge_float.
  split; [tauto|]. intros ?. split_and!; try tauto. by eexists.
Qed.

(** C2 (as amended): order validation accepts a body exactly when the
    customer is given with a name (its other fields absent or strings),
    [items] is given as a list, possibly empty, whose every item has a
    product id, a title, an integer quantity of at least 1 and a unit
    price that is at least 0, [subtotal] and [total] are given, and
    [shipping] and [status] are absent or of their types; it fails with a
    validation error exactly when one of these does not hold. *)
Theorem order_validation_exact (body : OrderIn.Raw.t) :
  (accepted (OrderIn.validate body) <-> order_acceptable body) /\
  (rejected (OrderIn.validate body) <-> ~ order_acceptable body).
Proof.
  assert (Hacc : accepted (OrderIn.validate body) <-> order_acceptable body).
  { unfold OrderIn.validate, order_acceptable.
    rewrite !ap_accepted, !Model_accepted, !Field_required_accepted, !Field_default_accepted.
    rewrite well_typed_field_map.
    rewrite !(supplied_iff (fun _ => unconstrained _ = true) (fun _ => True)) by done.
    rewrite (supplied_iff _ customer_acceptable) by apply Customer_accepted.
    rewrite (supplied_iff (fun r => accepted (Items _ _ r)) (Forall item_acceptable)).
    - split; [tauto|]. intros ?. split_and!; try tauto. by eexists.
    - intros rs. rewrite Items_accepted. apply Forall_iff, OrderItem_accepted. }
  split; [exact Hacc|]. rewrite rejected_iff_not_accepted. by rewrite Hacc.
Qed.

(** C2, refuted as stated: an order whose list of items is empty passes
    validation. *)
Lemma empty_order_accepted :
  OrderIn.Raw.items empty_order_body = Given [] /\
  accepted (OrderIn.validate empty_order_body) /\
  ~ rejected (OrderIn.validate empty_order_body).
Proof.
  split; [reflexivity|]. split.
  - eexists. reflexivity.
  - intros [es Hes]. discriminate.
Qed.

(** One failing field fails the whole model: walk down the chain of
    fields to the one that [tac] shows failing. *)
Ltac failing_field tac :=
  repeat first [ apply ap_failed_r; solve [tac] | apply ap_failed_l ].

Lemma ProductIn_failures (body : ProductIn.Raw.t) :
  (exists x, ProductIn.Raw.price body = Given x /\ PrimFloat.ltb x 0 = true) \/
  ProductIn.Raw.title body = Absent \/
  ProductIn.Raw.category body = Absent ->
  failed (ProductIn.validate body).
Proof.
  unfold ProductIn.validate. intros [(x & Hx & Hneg)|[Ht|Hc]].
  - rewrite Hx. failing_field ltac:(apply Field_check_failed, negative_not_ge_0, Hneg).
  - rewrite Ht. failing_field ltac:(apply Field_absent_failed).
  - rewrite Hc. failing_field ltac:(apply Field_absent_failed).
Qed.

Section CreateRejected.
Context `{Runtime}.

(** C6: a product body whose price is negative, or whose title or category
    is missing, fails validation with a non-empty report, and
    [POST /api/products] answers with that report (status 422) and leaves
    the store exactly as it was: nothing is persisted. *)
Theorem invalid_product_not_persisted (s : handle) (new_id : ObjectId)
    (body : ProductIn.Raw.t) :
  (exists x, ProductIn.Raw.price body = Given x /\ PrimFloat.ltb x 0 = true) \/
  ProductIn.Raw.title body = Absent \/
  ProductIn.Raw.category body = Absent ->
  exists es,
    es <> [] /\
    ProductIn.validate body = Errors es /\
    post_api_products new_id body s = (Raise (RequestValidationError es), s) /\
    status_of (fst (post_api_products new_id body s)) = 422%Z.
Proof.
  intros Hbad. destruct (ProductIn_failures body Hbad) as (es & Hes & Hne).
  exists es. unfold post_api_products. rewrite Hes. by split_and!.
Qed.

End CreateRejected.

(** C3: [ProductIn] of [main.py] accepts a negative stock, which the
    [Product] schema of [schemas.py] (stock: [ge=0]) rejects; posted, the
    record is stored with the negative stock. *)
Theorem negative_stock_accepted :
  ProductIn.Raw.stock negative_stock_body = Given (-5)%Z /\
  (exists p, ProductIn.validate negative_stock_body = Valid p /\ ProductIn.stock p = (-5)%Z) /\
  Schemas.Product.validate negative_stock_body
  = Errors [mkError [LKey "stock"] greater_than_equal] /\
  match @post_api_products sample_runtime sample_id negative_stock_body (Some empty_store) with
  | (Ok (Some out), Some db') =>
      out !! "stock" = Some (VInt (-5)) /\ List.length (collection db' "product") = 1%nat
  | _ => False
  end.
Proof.
  split; [reflexivity|]. split; [eexists; split; reflexivity|].
  split; [reflexivity|]. vm_compute. by split.
Qed.

(** ** Listing products *)

Section ListProducts.
Context `{Runtime}.

Lemma filter_all {A} (f : A -> bool) (l : list A) :
  (forall x, f x = true) -> List.filter f l = l.
Proof.
  intros Hall. induction l as [|x l IH]; [reflexivity|]. simpl. by rewrite Hall, IH.
Qed.

Lemma length_Cursor_limit (n : Z) (docs : list doc) :
  (1 <= n)%Z -> (Z.of_nat (List.length (Cursor_limit n docs)) <= n)%Z.
Proof.
  intros Hn. unfold Cursor_limit. destruct (Z.eqb_spec n 0); [lia|].
  rewrite length_take. lia.
Qed.

Lemma elem_of_Cursor_limit (n : Z) (docs : list doc) (d : doc) :
  d ∈ Cursor_limit n docs -> d ∈ docs.
Proof. unfold Cursor_limit. destruct (n =? 0)%Z; [done|]. apply subseteq_take. Qed.

Lemma Cursor_limit_zero (docs : list doc) : Cursor_limit 0 docs = docs.
Proof. reflexivity. Qed.

(** With neither filter, the listing is the collection, cut by the store
    at the limit the handler passes. *)
Lemma list_products_unfiltered (limit : Z) (db : Database) :
  fault db = None ->
  list_products None None limit (Some db)
  = (Ok ((fun d => serialize_doc (Some d)) <$>
           Cursor_limit (Z.min limit 200) (collection db "product")),
     Some db).
Proof.
  intros Hf. unfold list_products, mbind, M_bind, get_db, getattr_db, find.
  cbn -[serialize_doc Cursor_limit collection Z.min query_compiles matches].
  rewrite Hf, query_compiles_empty, filter_all by apply matches_empty. reflexivity.
Qed.

(** For a limit of at least 1 the clamp bounds the listing: at most 200
    records, and at most [limit]. *)
Lemma list_products_bounded (category q : option string) (limit : Z) (s s' : handle)
    (items : list (option doc)) :
  (1 <= limit)%Z ->
  list_products category q limit s = (Ok items, s') ->
  (Z.of_nat (List.length items) <= Z.min limit 200)%Z.
Proof.
  intros Hl. unfold list_products, mbind, M_bind, get_db, getattr_db, find.
  destruct s as [db|]; [|discriminate].
  cbn -[serialize_doc Cursor_limit collection Z.min query_compiles matches].
  destruct (fault db); [discriminate|].
  destruct (query_compiles _); [|discriminate].
  intros [= <- _]. rewrite length_fmap. apply length_Cursor_limit. lia.
Qed.

(** Left to its default, the limit is 100. *)
Lemma get_api_products_default (category q : option string) (s s' : handle)
    (items : list (option doc)) :
  get_api_products category q None s = (Ok items, s') ->
  (List.length items <= 100)%nat.
Proof.
  unfold get_api_products. simpl. intros Hrun.
  apply list_products_bounded in Hrun; lia.
Qed.

(** Every listed record is the serialization of a stored product. *)
Lemma list_products_serialized (category q : option string) (limit : Z) (db : Database)
    (s' : handle) (items : list (option doc)) :
  list_products category q limit (Some db) = (Ok items, s') ->
  Forall (fun r => exists d, d ∈ collection db "product" /\ r = serialize_doc (Some d)) items.
Proof.
  unfold list_products, mbind, M_bind, get_db, getattr_db, find.
  cbn -[serialize_doc Cursor_limit collection Z.min query_compiles matches].
  destruct (fault db); [discriminate|].
  destruct (query_compiles _); [|discriminate].
  intros [= <- _]. apply Forall_fmap, Forall_forall. intros d Hd. exists d. split; [|done].
  apply elem_of_Cursor_limit in Hd.
  apply list_elem_of_In, List.filter_In in Hd as [Hin _]. by apply list_elem_of_In.
Qed.

(** C4: the clamp [min(limit, 200)] has no lower bound, and the store
    reads a limit of 0 as no limit: on a store of 201 products,
    [list_products] with [limit = 0] returns all 201. *)
Theorem list_products_limit_zero_unbounded :
  list_products None None 0 (Some crowded_store)
  = (Ok ((fun d => serialize_doc (Some d)) <$> collection crowded_store "product"),
     Some crowded_store) /\
  List.length ((fun d => serialize_doc (Some d)) <$> collection crowded_store "product")
  = 201%nat.
Proof.
  split.
  - by rewrite list_products_unfiltered.
  - rewrite length_fmap. reflexivity.
Qed.

(** C10: an empty [category], and likewise an empty [q], is the filter
    left out: the handler behaves as for [None], and with an empty
    category and no [q] it lists the collection whatever the categories;
    a non-empty category [c] selects the documents whose [category] field
    is the string [c]. *)
Theorem list_products_category_filter (c : string) (q : option string) (limit : Z)
    (db : Database) :
  c <> "" ->
  fault db = None ->
  (forall s, list_products (Some "") q limit s = list_products None q limit s) /\
  (forall category s,
     list_products category (Some "") limit s = list_products category None limit s) /\
  list_products (Some "") None limit (Some db)
  = (Ok ((fun d => serialize_doc (Some d)) <$>
           Cursor_limit (Z.min limit 200) (collection db "product")),
     Some db) /\
  list_products (Some c) None limit (Some db)
  = (Ok ((fun d => serialize_doc (Some d)) <$>
           Cursor_limit (Z.min limit 200)
             (List.filter (fun d => holds (EqStr c) (d !! "category"))
                (collection db "product"))),
     Some db) /\
  (forall d : doc,
     holds (EqStr c) (d !! "category") = true <-> d !! "category" = Some (VStr c)).
Proof.
  intros Hc Hf. split_and!.
  - reflexivity.
  - reflexivity.
  - by apply list_products_unfiltered.
  - unfold list_products, mbind, M_bind, get_db, getattr_db, find, truthy.
    apply String.eqb_neq in Hc. rewrite Hc.
    cbn -[serialize_doc Cursor_limit collection Z.min query_compiles matches].
    rewrite Hf, insert_empty, query_compiles_singleton by exact I.
    rewrite (List.filter_ext _ (fun d : doc => holds (EqStr c) (d !! "category")))
      by (intros d; apply matches_singleton).
    reflexivity.
  - intros d. apply holds_EqStr.
Qed.

End ListProducts.

(** ** Without a store *)

Section Unconfigured.
Context `{Runtime}.

(** C7: with no store configured, [list_products] and [get_product] stop
    at their own check with 500 "Database not configured";
    [create_product] and [create_order] have no such check and go straight
    to [create_document], whose failure is what they raise. *)
Theorem create_handlers_skip_db_check (category q : option string) (limit : Z)
    (product_id : string) (new_id : ObjectId) (p : ProductIn.t) (o : OrderIn.t) :
  list_products category q limit None
  = (Raise (HTTPException 500 "Database not configured"), None) /\
  get_product product_id None
  = (Raise (HTTPException 500 "Database not configured"), None) /\
  create_document new_id "product" (ProductIn.model_dump p) None
  = (Raise (Exception_ "Database not available"), None) /\
  create_product new_id p None = (Raise (Exception_ "Database not available"), None) /\
  create_document new_id "order" (OrderIn.model_dump o) None
  = (Raise (Exception_ "Database not available"), None) /\
  create_order new_id o None = (Raise (Exception_ "Database not available"), None) /\
  create_product new_id p None <> get_product product_id None /\
  create_order new_id o None <> get_product product_id None.
Proof.
  split_and!; try reflexivity; discriminate.
Qed.

End Unconfigured.

(** ** Diagnostics *)

(** C9 (as amended): the diagnostics report depends on the environment
    only through whether [DATABASE_URL] is set to a non-empty value and
    through the value of [DATABASE_NAME] (unset and empty alike): the
    connection string is reported by presence only, the database name is
    echoed. *)
Theorem test_database_environment (environ1 environ2 : gmap string string) (s : handle) :
  truthy (getenv environ1 "DATABASE_URL") = truthy (getenv environ2 "DATABASE_URL") ->
  or_ (getenv environ1 "DATABASE_NAME") "" = or_ (getenv environ2 "DATABASE_NAME") "" ->
  test_database environ1 s = test_database environ2 s.
Proof.
  intros Hurl Hname. unfold test_database. rewrite Hurl.
  assert (Hor : or_ (getenv environ1 "DATABASE_NAME") "❌ Not Set"
                = or_ (getenv environ2 "DATABASE_NAME") "❌ Not Set").
  { revert Hname. unfold or_, truthy.
    destruct (getenv environ1 "DATABASE_NAME") as [n1|], (getenv environ2 "DATABASE_NAME") as [n2|];
      try destruct (String.eqb_spec n1 ""); try destruct (String.eqb_spec n2 "");
      simpl; congruence. }
  by rewrite Hor.
Qed.

(** C9, refuted as stated: two environments that set the same variables
    and differ in the value of [DATABASE_NAME] get different reports; the
    report holds the name itself. *)
Lemma test_database_echoes_database_name :
  (forall name, is_Some (getenv shop_environ name) <-> is_Some (getenv prod_environ name)) /\
  test_database shop_environ (Some empty_store) <> test_database prod_environ (Some empty_store) /\
  (exists report,
     test_database shop_environ (Some empty_store) = (Ok report, Some empty_store) /\
     report !! "database_name" = Some (VStr "shop")).
Proof.
  split_and!.
  - intros name. unfold getenv, shop_environ, prod_environ.
    destruct (decide (name = "DATABASE_URL")) as [->|]; [done|].
    destruct (decide (name = "DATABASE_NAME")) as [->|]; [done|].
    by rewrite !lookup_insert_ne, !lookup_singleton_ne.
  - intros Heq.
    apply (f_equal (fun r : result doc * handle =>
                      match fst r with
                      | Ok report => report !! "database_name"
                      | Raise _ => None
                      end)) in Heq.
    vm_compute in Heq. discriminate.
  - eexists. split; reflexivity.
Qed.

(** ** The theorems at sample inputs *)

Lemma serialize_doc_public_id_witness :
  exists out : doc,
    @serialize_doc sample_runtime (Some (numbered_product 1)) = Some out /\
    out !! "id" = Some (VStr (Bson.to_str (numbered_id 1))) /\
    out !! "_id" = None /\
    forall k, k <> "id" -> k <> "_id" -> out !! k = numbered_product 1 !! k.
Proof.
  apply (@serialize_doc_public_id sample_runtime (numbered_product 1) (numbered_id 1)).
  reflexivity.
Defined.

Lemma get_product_not_found_witness :
  @get_product sample_runtime "not-a-valid-id-format" (Some two_category_store)
  = (Raise (HTTPException 404 "Product not found"), Some two_category_store) /\
  @get_product sample_runtime "507f1f77bcf86cd799439011" (Some two_category_store)
  = (Raise (HTTPException 404 "Product not found"), Some two_category_store) /\
  @get_product sample_runtime "not-a-valid-id-format" None
  = @get_product sample_runtime "507f1f77bcf86cd799439011" None.
Proof.
  apply (@get_product_not_found sample_runtime two_category_store
           "not-a-valid-id-format" "507f1f77bcf86cd799439011" sample_id).
  - reflexivity.
  - reflexivity.
  - apply Forall_forall. repeat constructor; vm_compute; discriminate.
Defined.


Lemma invalid_product_not_persisted_witness :
  exists es,
    es <> [] /\
    ProductIn.validate negative_price_body = Errors es /\
    @post_api_products sample_runtime sample_id negative_price_body (Some empty_store)
    = (Raise (RequestValidationError es), Some empty_store) /\
    status_of (fst (@post_api_products sample_runtime sample_id negative_price_body
                      (Some empty_store))) = 422%Z.
Proof.
  apply (@invalid_product_not_persisted sample_runtime (Some empty_store) sample_id
           negative_price_body).
  left. exists (-1)%float. split; reflexivity.
Defined.

Lemma test_database_environment_witness :
  test_database shop_environ (Some empty_store)
  = test_database other_url_environ (Some empty_store).
Proof.
  apply (test_database_environment shop_environ other_url_environ (Some empty_store)).
  - reflexivity.
  - reflexivity.
Defined.

Lemma list_products_category_filter_witness :
  (forall s, @list_products sample_runtime (Some "") None 100 s
             = @list_products sample_runtime None None 100 s) /\
  (forall category s,
     @list_products sample_runtime category (Some "") 100 s
     = @list_products sample_runtime category None 100 s) /\
  @list_products sample_runtime (Some "") None 100 (Some two_category_store)
  = (Ok ((fun d => @serialize_doc sample_runtime (Some d)) <$>
           Cursor_limit (Z.min 100 200) (collection two_category_store "product")),
     Some two_category_store) /\
  @list_products sample_runtime (Some "pottery") None 100 (Some two_category_store)
  = (Ok ((fun d => @serialize_doc sample_runtime (Some d)) <$>
           Cursor_limit (Z.min 100 200)
             (List.filter (fun d => @holds sample_runtime (EqStr "pottery") (d !! "category"))
                (collection two_category_store "product"))),
     Some two_category_store) /\
  (forall d : doc,
     @holds sample_runtime (EqStr "pottery") (d !! "category") = true
     <-> d !! "category" = Some (VStr "pottery")).
Proof.
  apply (@list_products_category_filter sample_runtime "pottery" None 100 two_category_store).
  - discriminate.
  - reflexivity.
Defined.

(** * Further properties of the code *)

(** ** Identifiers *)

Lemma fromhex_length (s : string) (bs : list Byte.byte) :
  Bson.fromhex s = Some bs -> String.length s = (2 * List.length bs)%nat.
Proof.
  revert s. induction bs as [|b bs IH]; intros s Hs.
  - destruct s as [|a [|c rest]]; [reflexivity|discriminate|].
    cbn [Bson.fromhex] in Hs.
    destruct (Bson.hexval a), (Bson.hexval c); try discriminate.
    destruct (Byte.of_N _), (Bson.fromhex rest); discriminate.
  - destruct s as [|a [|c rest]]; [discriminate|discriminate|].
    cbn [Bson.fromhex] in Hs.
    destruct (Bson.hexval a), (Bson.hexval c); try discriminate.
    destruct (Byte.of_N _); [|discriminate].
    destruct (Bson.fromhex rest) as [bs'|] eqn:Hrest; [|discriminate].
    injection Hs as _ ->. cbn [String.length List.length]. rewrite (IH rest Hrest). lia.
Qed.

(** A parsed id holds 12 bytes. *)
Lemma of_str_well_formed (s : string) (o : ObjectId) :
  Bson.of_str s = Some o -> Bson.well_formed o.
Proof.
  unfold Bson.of_str, Bson.well_formed.
  destruct (Nat.eqb_spec (String.length s) 24) as [Hlen|]; [|discriminate].
  destruct (Bson.fromhex s) as [bs|] eqn:Hbs; [|discriminate].
  intros [= <-]. simpl. apply fromhex_length in Hbs. lia.
Qed.




(** X2: round trip through [PyObjectId.validate]: the string form of a
    12-byte id validates, and to that id. *)
Theorem PyObjectId_validate_round_trip (o : ObjectId) :
  Bson.well_formed o ->
  PyObjectId_validate (VStr (Bson.to_str o)) = Ok o /\
  PyObjectId_validate (VStr (Bson.to_str o)) = PyObjectId_validate (VObjectId o).
Proof.
  intros Hwf. simpl. unfold Bson.is_valid. by rewrite of_str_to_str.
Qed.

Lemma PyObjectId_validate_round_trip_witness :
  PyObjectId_validate (VStr (Bson.to_str sample_id)) = Ok sample_id /\
  PyObjectId_validate (VStr (Bson.to_str sample_id)) = PyObjectId_validate (VObjectId sample_id).
Proof. apply (PyObjectId_validate_round_trip sample_id). reflexivity. Defined.

(** ** More on serialization *)

Section SerializationMore.
Context `{Runtime}.

(** X3: [serialize_doc] is idempotent, and it returns its argument
    unchanged exactly when that is [None] or a dict without an [_id] key
    (the empty dict included). *)
Theorem serialize_doc_idempotent (x : option doc) :
  serialize_doc (serialize_doc x) = serialize_doc x /\
  (serialize_doc x = x <-> forall d, x = Some d -> d !! "_id" = None).
Proof.
  destruct x as [d|]; [|split; [reflexivity|split; [discriminate|reflexivity]]].
  destruct (d !! "_id") as [v|] eqn:Hid.
  - rewrite (serialize_doc_with_id d v Hid).
    assert (Hgone : (<["id" := VStr (py_str v)]> (delete "_id" d) : doc) !! "_id" = None).
    { rewrite lookup_insert_ne by done. apply lookup_delete_eq. }
    split.
    + unfold serialize_doc. destruct (decide _); [done|]. by rewrite Hgone.
    + split.
      * intros [= Heq]. rewrite <- Heq in Hid. congruence.
      * intros Hnone. specialize (Hnone d eq_refl). congruence.
  - assert (Hsame : serialize_doc (Some d) = Some d).
    { unfold serialize_doc. destruct (decide _); [done|]. by rewrite Hid. }
    rewrite Hsame. split; [exact Hsame|]. split; [|done]. by intros _ d' [= <-].
Qed.

(** X4: for a dict with an [_id] key, whatever the value under it, the
    result has the keys of the dict without [_id] and with [id]; [id]
    holds [str] of that value even when the dict had an [id] field of its
    own, which is lost. *)
Theorem serialize_doc_keys (d : doc) (v : value) :
  d !! "_id" = Some v ->
  exists out : doc,
    serialize_doc (Some d) = Some out /\
    dom out = {[ "id" ]} ∪ (dom d ∖ {[ "_id" ]}) /\
    out !! "id" = Some (VStr (py_str v)) /\
    (forall w, d !! "id" = Some w -> size out = (size d - 1)%nat) /\
    (d !! "id" = None -> size out = size d).
Proof.
  intros Hid. eexists. split; [by apply serialize_doc_with_id|].
  assert (Hdel : size (delete "_id" d) = (size d - 1)%nat).
  { rewrite map_size_delete, Hid. simpl. lia. }
  assert (Hpos : (0 < size d)%nat).
  { destruct (size d) eqn:Hs; [|lia]. apply map_size_empty_iff in Hs. subst d.
    rewrite lookup_empty in Hid. discriminate. }
  split_and!.
  - by rewrite dom_insert_L, dom_delete_L.
  - apply lookup_insert_eq.
  - intros w Hw. rewrite map_size_insert_Some; [exact Hdel|].
    exists w. by rewrite lookup_delete_ne.
  - intros Hnone. rewrite map_size_insert_None; [lia|].
    by rewrite lookup_delete_ne.
Qed.

End SerializationMore.

Lemma serialize_doc_keys_witness :
  exists out : doc,
    @serialize_doc sample_runtime (Some (<["id" := VInt 7]> (numbered_product 3))) = Some out /\
    dom out = {[ "id" ]} ∪ (dom (<["id" := VInt 7]> (numbered_product 3) : doc) ∖ {[ "_id" ]}) /\
    out !! "id" = Some (VStr (@py_str sample_runtime (VObjectId (numbered_id 3)))) /\
    (forall w, (<["id" := VInt 7]> (numbered_product 3) : doc) !! "id" = Some w ->
       size out = (size (<["id" := VInt 7]> (numbered_product 3) : doc) - 1)%nat) /\
    ((<["id" := VInt 7]> (numbered_product 3) : doc) !! "id" = None ->
       size out = size (<["id" := VInt 7]> (numbered_product 3) : doc)).
Proof.
  apply (@serialize_doc_keys sample_runtime (<["id" := VInt 7]> (numbered_product 3))
           (VObjectId (numbered_id 3))).
  reflexivity.
Defined.

(** ** More on looking a product up *)

Lemma hexval_upper (c : ascii) : Bson.hexval (ascii_upper c) = Bson.hexval c.
Proof. destruct c as [[] [] [] [] [] [] [] []]; reflexivity. Qed.

Lemma length_upper (s : string) : String.length (upper s) = String.length s.
Proof. induction s as [|c s IH]; simpl; congruence. Qed.

Lemma fromhex_upper_bounded (n : nat) (s : string) :
  (String.length s <= n)%nat -> Bson.fromhex (upper s) = Bson.fromhex s.
Proof.
  revert s. induction n as [|n IH]; intros [|a [|b rest]] Hlen; try reflexivity;
    simpl in Hlen; try lia.
  cbn [upper Bson.fromhex]. rewrite !hexval_upper, IH by lia. reflexivity.
Qed.

(** Parsing an id does not depend on the case of its hexadecimal digits. *)
Lemma of_str_upper (s : string) : Bson.of_str (upper s) = Bson.of_str s.
Proof.
  unfold Bson.of_str. rewrite length_upper.
  by rewrite (fromhex_upper_bounded (String.length s)).
Qed.

Section GetProductMore.
Context `{Runtime}.

(** The handler sees its argument only through the id it parses to. *)
Lemma get_product_by_parsed_id (p1 p2 : string) (s : handle) :
  Bson.of_str p1 = Bson.of_str p2 -> get_product p1 s = get_product p2 s.
Proof.
  intros Heq. unfold get_product, mbind, M_bind, get_db, try_except, getattr_db, ObjectId_.
  by rewrite Heq.
Qed.

(** X5: on a working store, [get_product] with an identifier that parses
    answers with the serialization of the first product, in store order,
    that carries this identifier; the answer's [id] is the identifier in
    its canonical (lowercase) rendering, and the store is left as it
    was. *)
Theorem get_product_found (db : Database) (product_id : string) (o : ObjectId)
    (before after : list doc) (d : doc) :
  fault db = None ->
  Bson.of_str product_id = Some o ->
  collection db "product" = before ++ d :: after ->
  (forall x, x ∈ before -> x !! "_id" <> Some (VObjectId o)) ->
  d !! "_id" = Some (VObjectId o) ->
  exists out : doc,
    get_product product_id (Some db) = (Ok (Some out), Some db) /\
    serialize_doc (Some d) = Some out /\
    out !! "id" = Some (VStr (Bson.to_str o)) /\
    Bson.of_str (Bson.to_str o) = Some o.
Proof.
  intros Hf Hparse Hcoll Hbefore Hid.
  assert (Hfind : find_one "product" {[ "_id" := EqObjectId o ]} (Some db)
                  = (Ok (Some d), Some db)).
  { rewrite find_one_by_id by done. rewrite Hcoll, List.filter_app, filter_none.
    - apply holds_EqObjectId in Hid. cbn [List.filter app]. by rewrite Hid.
    - intros x Hx. destruct (holds (EqObjectId o) (x !! "_id")) eqn:E; [|done].
      apply holds_EqObjectId in E. by apply Hbefore in Hx. }
  assert (Hnonempty : not_ (Some d) = false).
  { simpl. apply bool_decide_eq_false. intros Hemp. rewrite Hemp, lookup_empty in Hid.
    discriminate. }
  exists (<["id" := VStr (Bson.to_str o)]> (delete "_id" d)). split_and!.
  - unfold get_product, mbind, M_bind, get_db, try_except, getattr_db, ObjectId_.
    rewrite Hparse. cbn -[find_one serialize_doc not_].
    rewrite Hfind, Hnonempty. by rewrite (serialize_doc_with_id d _ Hid).
  - by rewrite (serialize_doc_with_id d _ Hid).
  - apply lookup_insert_eq.
  - apply of_str_to_str. by apply of_str_well_formed in Hparse.
Qed.

(** X6: a failure of the store during the lookup is swallowed by the
    handler's [except Exception]: with a store that cannot be reached,
    [get_product] answers 404 "Product not found" for every identifier,
    where [list_products] lets the store's exception through (a 500). *)
Theorem get_product_masks_store_failure (db : Database) (msg product_id : string)
    (category q : option string) (limit : Z) :
  fault db = Some msg ->
  get_product product_id (Some db) = (Raise (HTTPException 404 "Product not found"), Some db) /\
  status_of (fst (get_product product_id (Some db))) = 404%Z /\
  list_products category q limit (Some db) = (Raise (PyMongoError msg), Some db) /\
  status_of (fst (list_products category q limit (Some db))) = 500%Z.
Proof.
  intros Hf.
  assert (Hget : get_product product_id (Some db) = (Raise not_found, Some db)).
  { unfold get_product, mbind, M_bind, get_db, try_except, getattr_db, ObjectId_, find_one.
    destruct (Bson.of_str product_id); [|reflexivity].
    cbn -[query_compiles matches]. by rewrite Hf. }
  assert (Hlist : list_products category q limit (Some db) = (Raise (PyMongoError msg), Some db)).
  { unfold list_products, mbind, M_bind, get_db, getattr_db, find.
    cbn -[serialize_doc Cursor_limit collection Z.min query_compiles matches].
    by rewrite Hf. }
  rewrite Hget, Hlist. by split_and!.
Qed.

(** X7: identifiers are matched whatever the case of their hexadecimal
    digits: [get_product] does the same on an identifier and on its
    upper-case spelling. *)
Theorem get_product_ignores_case (product_id : string) (s : handle) :
  get_product (upper product_id) s = get_product product_id s.
Proof. apply get_product_by_parsed_id, of_str_upper. Qed.

End GetProductMore.

Lemma get_product_found_witness :
  exists out : doc,
    @get_product sample_runtime "000000000000000000000002" (Some two_category_store)
    = (Ok (Some out), Some two_category_store) /\
    @serialize_doc sample_runtime (Some (<["category" := VStr "textile"]> (numbered_product 2)))
    = Some out /\
    out !! "id" = Some (VStr (Bson.to_str (numbered_id 2))) /\
    Bson.of_str (Bson.to_str (numbered_id 2)) = Some (numbered_id 2).
Proof.
  apply (@get_product_found sample_runtime two_category_store "000000000000000000000002"
           (numbered_id 2)
           [<["_id" := VObjectId (numbered_id 1)]> (ProductIn.model_dump clay_pot)] []
           (<["category" := VStr "textile"]> (numbered_product 2))).
  - reflexivity.
  - reflexivity.
  - reflexivity.
  - apply Forall_forall. repeat constructor; vm_compute; discriminate.
  - reflexivity.
Defined.

Lemma get_product_masks_store_failure_witness :
  @get_product sample_runtime "000000000000000000000002"
    (Some (mkDatabase (collections two_category_store) (Some "connection refused") ∅))
  = (Raise (HTTPException 404 "Product not found"),
     Some (mkDatabase (collections two_category_store) (Some "connection refused") ∅)) /\
  status_of (fst (@get_product sample_runtime "000000000000000000000002"
                    (Some (mkDatabase (collections two_category_store) (Some "connection refused") ∅)))) = 404%Z /\
  @list_products sample_runtime None None 100
    (Some (mkDatabase (collections two_category_store) (Some "connection refused") ∅))
  = (Raise (PyMongoError "connection refused"),
     Some (mkDatabase (collections two_category_store) (Some "connection refused") ∅)) /\
  status_of (fst (@list_products sample_runtime None None 100
                    (Some (mkDatabase (collections two_category_store) (Some "connection refused") ∅)))) = 500%Z.
Proof.
  apply (@get_product_masks_store_failure sample_runtime
           (mkDatabase (collections two_category_store) (Some "connection refused") ∅)
           "connection refused" "000000000000000000000002" None None 100).
  reflexivity.
Defined.

(** ** Routes that only read *)

Section ReadOnly.
Context `{Runtime}.

(** X8: the three [GET] routes never write: whatever their arguments and
    whether they answer or raise, [list_products], [get_product] and
    [test_database] hand the store back as they found it. *)
Theorem get_routes_leave_store (category q : option string) (limit : Z)
    (product_id : string) (environ : gmap string string) (s : handle) :
  snd (list_products category q limit s) = s /\
  snd (get_product product_id s) = s /\
  snd (test_database environ s) = s.
Proof.
  destruct s as [db|]; [|by split_and!]. split_and!.
  - unfold list_products, mbind, M_bind, get_db, getattr_db, find.
    cbn -[serialize_doc Cursor_limit collection Z.min query_compiles matches].
    destruct (fault db); [reflexivity|]. by destruct (query_compiles _).
  - unfold get_product, mbind, M_bind, get_db, try_except, getattr_db, ObjectId_, find_one.
    destruct (Bson.of_str product_id); [|reflexivity].
    cbn -[serialize_doc collection query_compiles matches not_].
    destruct (fault db); [reflexivity|].
    destruct (query_compiles _); [|reflexivity].
    cbn -[serialize_doc collection query_compiles matches not_].
    by destruct (not_ _).
  - unfold test_database, try_except, mbind, M_bind, get_db, list_collection_names.
    by destruct (fault db).
Qed.

End ReadOnly.

(** ** More on diagnostics *)

Lemma char_count_upto (n : nat) (s : string) : (char_count (upto n s) <= n)%nat.
Proof.
  revert n. induction s as [|c s IH]; intros n; cbn [upto char_count]; [lia|].
  destruct (is_continuation c) eqn:Hc.
  - cbn [char_count]. rewrite Hc. specialize (IH n). lia.
  - destruct n as [|n]; cbn [char_count]; [lia|]. rewrite Hc. specialize (IH n). lia.
Qed.

Lemma upto_prefix (n : nat) (s : string) : String.prefix (upto n s) s = true.
Proof.
  revert n. induction s as [|c s IH]; intros n; cbn [upto]; [reflexivity|].
  destruct (is_continuation c); [|destruct n as [|n]; [reflexivity|]];
    cbn [String.prefix]; destruct (Ascii.ascii_dec c c); try done; apply IH.
Qed.

Lemma upto_all (n : nat) (s : string) : (char_count s <= n)%nat -> upto n s = s.
Proof.
  revert n. induction s as [|c s IH]; intros n; cbn [upto char_count]; [reflexivity|].
  destruct (is_continuation c); intros Hn.
  - by rewrite IH by lia.
  - destruct n as [|n]; [lia|]. by rewrite IH by lia.
Qed.

(** X9: the diagnostics route never raises: for every environment and
    every state of the store it answers with a report of the same six
    keys, [backend] saying that the process runs; without a configured
    store the report says so and leaves [database_url] and
    [database_name] at [None], whatever the environment. *)
Theorem test_database_always_answers (environ : gmap string string) (s : handle) :
  exists report : doc,
    test_database environ s = (Ok report, s) /\
    dom report = list_to_set ["backend"; "database"; "database_url"; "database_name";
                              "connection_status"; "collections"] /\
    report !! "backend" = Some (VStr "✅ Running") /\
    (s = None ->
       report !! "database" = Some (VStr "❌ Database not initialized") /\
       report !! "database_url" = Some VNone /\
       report !! "database_name" = Some VNone /\
       report !! "connection_status" = Some (VStr "Not Connected") /\
       report !! "collections" = Some (VList [])).
Proof.
  destruct s as [db|].
  - unfold test_database, try_except, mbind, M_bind, get_db, list_collection_names.
    destruct (fault db) as [msg|]; eexists; (split; [reflexivity|]);
      (split_and!; [reflexivity|reflexivity|discriminate]).
  - eexists. split; [reflexivity|]. split_and!; try reflexivity. intros _. by split_and!.
Qed.

(** A slice counts characters, not bytes: of three two-byte characters
    the first two are four bytes, and 80 of the 81 are 160 bytes. *)
Example upto_counts_characters :
  upto 2 "ééé" = "éé" /\
  String.length (upto 2 "ééé") = 4%nat /\
  char_count accented_error = 81%nat /\
  char_count (upto 80 accented_error) = 80%nat /\
  String.length (upto 80 accented_error) = 160%nat.
Proof. by vm_compute. Qed.

(** X10: when the probe of the store fails, the report carries the
    failure as text and nothing else changes: [database] is the fixed
    prefix followed by the first 80 characters of the error message (the
    whole message when it has no more than 80), a character being kept
    with all of its bytes; [connection_status] stays "Not Connected" and
    [collections] stays empty. *)
Theorem test_database_reports_failure (environ : gmap string string) (db : Database)
    (msg : string) :
  fault db = Some msg ->
  exists report : doc,
    test_database environ (Some db) = (Ok report, Some db) /\
    report !! "database" = Some (VStr ("⚠️ Connected but error: " +:+ upto 80 msg)) /\
    (char_count (upto 80 msg) <= 80)%nat /\
    String.prefix (upto 80 msg) msg = true /\
    ((char_count msg <= 80)%nat -> upto 80 msg = msg) /\
    report !! "connection_status" = Some (VStr "Not Connected") /\
    report !! "collections" = Some (VList []).
Proof.
  intros Hf. unfold test_database, try_except, mbind, M_bind, get_db, list_collection_names.
  rewrite Hf. eexists. split; [reflexivity|].
  split_and!; try reflexivity; [apply char_count_upto|apply upto_prefix|apply upto_all].
Qed.

(** X11: on a store that answers, the report lists under [collections]
    the names of the collections of the database, each once, with
    [connection_status] "Connected". *)
Theorem test_database_lists_collections (environ : gmap string string) (db : Database) :
  fault db = None ->
  exists (report : doc) (names : list string),
    test_database environ (Some db) = (Ok report, Some db) /\
    report !! "collections" = Some (VStrs names) /\
    NoDup names /\
    (forall name, name ∈ names <-> is_Some (collections db !! name)) /\
    report !! "connection_status" = Some (VStr "Connected") /\
    report !! "database" = Some (VStr "✅ Connected & Working").
Proof.
  intros Hf. unfold test_database, try_except, mbind, M_bind, get_db, list_collection_names.
  rewrite Hf. eexists _, ((map_to_list (collections db)).*1). split; [reflexivity|].
  split_and!; try reflexivity.
  - apply NoDup_fst_map_to_list.
  - intros name. rewrite list_elem_of_fmap. split.
    + intros [[k v] [-> Hin]]. apply elem_of_map_to_list in Hin. by exists v.
    + intros [v Hv]. exists (name, v). split; [done|]. by apply elem_of_map_to_list.
Qed.

Lemma test_database_reports_failure_witness :
  exists report : doc,
    test_database shop_environ (Some (mkDatabase ∅ (Some accented_error) ∅))
    = (Ok report, Some (mkDatabase ∅ (Some accented_error) ∅)) /\
    report !! "database"
    = Some (VStr ("⚠️ Connected but error: " +:+ upto 80 accented_error)) /\
    (char_count (upto 80 accented_error) <= 80)%nat /\
    String.prefix (upto 80 accented_error) accented_error = true /\
    ((char_count accented_error <= 80)%nat -> upto 80 accented_error = accented_error) /\
    report !! "connection_status" = Some (VStr "Not Connected") /\
    report !! "collections" = Some (VList []).
Proof.
  apply (test_database_reports_failure shop_environ
           (mkDatabase ∅ (Some accented_error) ∅) accented_error).
  reflexivity.
Defined.

Lemma test_database_lists_collections_witness :
  exists (report : doc) (names : list string),
    test_database shop_environ (Some two_category_store)
    = (Ok report, Some two_category_store) /\
    report !! "collections" = Some (VStrs names) /\
    NoDup names /\
    (forall name, name ∈ names <-> is_Some (collections two_category_store !! name)) /\
    report !! "connection_status" = Some (VStr "Connected") /\
    report !! "database" = Some (VStr "✅ Connected & Working").
Proof.
  apply (test_database_lists_collections shop_environ two_category_store).
  reflexivity.
Defined.

(** ** More on validation *)

Lemma ap_Valid_inv {A B} (f : validated (A -> B)) (x : validated A) (b : B) :
  f <*> x = Valid b -> exists g a, f = Valid g /\ x = Valid a /\ b = g a.
Proof.
  destruct f as [g|], x as [a|]; simpl; try discriminate.
  intros [= <-]. by exists g, a.
Qed.

Lemma Field_required_inv {A} (name : string) (check : A -> bool) (f : field A) (a : A) :
  Field name None check f = Valid a -> f = Given a /\ check a = true.
Proof.
  destruct f as [|a'|]; simpl; try discriminate.
  destruct (check a') eqn:E; [|discriminate]. by intros [= <-].
Qed.

Lemma Field_default_inv {A} (name : string) (d : A) (f : field A) (a : A) :
  Field name (Some d) unconstrained f = Valid a -> value_of d f a.
Proof.
  unfold value_of. destruct f as [|a'|]; simpl; try discriminate.
  - intros [= <-]. by right.
  - intros [= <-]. by left.
Qed.

Lemma Field_required_Valid {A} (name : string) (check : A -> bool) (f : field A) (a : A) :
  f = Given a -> check a = true -> Field name None check f = Valid a.
Proof. intros -> Hc. simpl. by rewrite Hc. Qed.

Lemma Field_default_Valid {A} (name : string) (d : A) (f : field A) (a : A) :
  value_of d f a -> Field name (Some d) unconstrained f = Valid a.
Proof. by intros [->|[-> ->]]. Qed.

(** Peel the fields off a successful validation, last field first. *)
Ltac peel_fields H :=
  repeat
    (let g := fresh "g" in
     let a := fresh "a" in
     let Hg := fresh "Hg" in
     let Ha := fresh "Ha" in
     apply ap_Valid_inv in H as (g & a & Hg & Ha & ->);
     first [ apply Field_required_inv in Ha as [Ha ?]
           | apply Field_default_inv in Ha
           | idtac ];
     rename Hg into H).

Lemma ProductIn_validate_inv (b : ProductIn.Raw.t) (p : ProductIn.t) :
  ProductIn.validate b = Valid p -> product_of b p.
Proof.
  unfold ProductIn.validate. intros Hv. peel_fields Hv. injection Hv as <-.
  unfold product_of. simpl. by split_and!.
Qed.

(** X12: product validation fails exactly when the title or the category
    is missing or not a string, the price is missing, not a number or not
    at least 0, or one of the other fields is given with a value that is
    not of its type; the stock may be any integer. *)
Theorem product_validation_exact (body : ProductIn.Raw.t) :
  (accepted (ProductIn.validate body) <-> product_acceptable body) /\
  (rejected (ProductIn.validate body) <-> ~ product_acceptable body).
Proof.
  assert (Hacc : accepted (ProductIn.validate body) <-> product_acceptable body).
  { unfold ProductIn.validate, product_acceptable.
    rewrite !ap_accepted, !Field_required_accepted, !Field_default_accepted.
    rewrite !(supplied_iff (fun _ => unconstrained _ = true) (fun _ => True)) by done.
    unfold ge_float. split; [tauto|]. intros ?. split_and!; try tauto. by eexists. }
  split; [exact Hacc|]. rewrite rejected_iff_not_accepted. by rewrite Hacc.
Qed.

(** X13: product validation yields the model [p] exactly when the body
    gives [p]'s title, category and price (at least 0), and every other
    field of [p] is the value given in the body or, the field being left
    out, its default: [None] for description, vendor and artisanStory,
    "INR" for currency, the empty list for images and materials, 0 for
    stock. Nothing that is given is changed. *)
Theorem product_validation_result (body : ProductIn.Raw.t) (p : ProductIn.t) :
  ProductIn.validate body = Valid p <-> product_of body p.
Proof.
  split; [apply ProductIn_validate_inv|].
  intros (Ht & Hd & Hp & Hge & Hcu & Hca & Hi & Hm & Hs & Hv & Ha).
  unfold ProductIn.validate.
  rewrite (Field_required_Valid "title" _ _ _ Ht eq_refl),
          (Field_default_Valid "description" _ _ _ Hd),
          (Field_required_Valid "price" (ge_float 0) _ _ Hp Hge),
          (Field_default_Valid "currency" _ _ _ Hcu),
          (Field_required_Valid "category" _ _ _ Hca eq_refl),
          (Field_default_Valid "images" _ _ _ Hi),
          (Field_default_Valid "materials" _ _ _ Hm),
          (Field_default_Valid "stock" _ _ _ Hs),
          (Field_default_Valid "vendor" _ _ _ Hv),
          (Field_default_Valid "artisanStory" _ _ _ Ha).
  by destruct p.
Qed.

(** X14: the two product schemas differ on the stock only: the [Product]
    schema of [schemas.py] yields a model exactly when [ProductIn] of
    [main.py] yields that model and its stock is not negative. *)
Theorem schemas_Product_vs_ProductIn (body : ProductIn.Raw.t) (p : ProductIn.t) :
  Schemas.Product.validate body = Valid p
  <-> ProductIn.validate body = Valid p /\ (0 <= ProductIn.stock p)%Z.
Proof.
  destruct (ProductIn.Raw.stock body) as [|n|] eqn:Hstock.
  - assert (Hsame : Schemas.Product.validate body = ProductIn.validate body).
    { unfold Schemas.Product.validate, ProductIn.validate. by rewrite Hstock. }
    rewrite Hsame. split; [|tauto]. intros Hv. split; [done|].
    apply ProductIn_validate_inv in Hv as (_ & _ & _ & _ & _ & _ & _ & _ & Hs & _).
    destruct Hs as [Hs|[_ ->]]; [congruence|lia].
  - destruct (Z.leb_spec 0 n) as [Hn|Hn].
    + assert (Hsame : Schemas.Product.validate body = ProductIn.validate body).
      { assert (Hfield : Field "stock" (Some 0%Z) (ge_int 0) (Given n)
                           = Field "stock" (Some 0%Z) unconstrained (Given n)).
        { simpl. unfold ge_int. apply Z.leb_le in Hn. by rewrite Hn. }
        unfold Schemas.Product.validate, ProductIn.validate. by rewrite Hstock, Hfield. }
      rewrite Hsame. split; [|tauto]. intros Hv. split; [done|].
      apply ProductIn_validate_inv in Hv as (_ & _ & _ & _ & _ & _ & _ & _ & Hs & _).
      destruct Hs as [Hs|[Hs _]]; congruence.
    + split.
      * intros Hv. exfalso.
        assert (Hfail : failed (Schemas.Product.validate body)).
        { unfold Schemas.Product.validate. rewrite Hstock.
          failing_field ltac:(apply Field_check_failed; unfold ge_int; by apply Z.leb_gt). }
        destruct Hfail as (es & Hes & _). congruence.
      * intros [Hv Hge]. exfalso.
        apply ProductIn_validate_inv in Hv as (_ & _ & _ & _ & _ & _ & _ & _ & Hs & _).
        destruct Hs as [Hs|[Hs _]]; [|congruence].
        assert (n = ProductIn.stock p) by congruence. lia.
  - assert (Hsame : Schemas.Product.validate body = ProductIn.validate body).
    { unfold Schemas.Product.validate, ProductIn.validate. by rewrite Hstock. }
    rewrite Hsame. split; [|tauto]. intros Hv. exfalso.
    apply ProductIn_validate_inv in Hv as (_ & _ & _ & _ & _ & _ & _ & _ & Hs & _).
    destruct Hs as [Hs|[Hs _]]; congruence.
Qed.

Lemma under_Valid_inv {A} (l : loc_item) (v : validated A) (a : A) :
  under l v = Valid a -> v = Valid a.
Proof. by destruct v. Qed.

Lemma Model_Valid_inv {R A} (name : string) (validate : R -> validated A) (f : field R)
    (a : A) :
  Model name validate f = Valid a -> exists r, f = Given r /\ validate r = Valid a.
Proof.
  destruct f as [|r|]; simpl; try discriminate.
  intros Hv. exists r. split; [done|]. by apply under_Valid_inv in Hv.
Qed.

Lemma Items_Valid_inv {R A} (validate : R -> validated A) (i : nat) (rs : list R)
    (l : list A) :
  Items validate i rs = Valid l -> Forall2 (fun r a => validate r = Valid a) rs l.
Proof.
  revert i l. induction rs as [|r rs IH]; intros i l; cbn [Items].
  - intros [= <-]. constructor.
  - intros Hv. apply ap_Valid_inv in Hv as (g & tl & Hg & Htl & ->).
    apply ap_Valid_inv in Hg as (c & a & Hc & Ha & ->). injection Hc as <-.
    constructor; [by apply under_Valid_inv in Ha|by apply IH in Htl].
Qed.

(** The shipping of a model against the body: the float given, or the
    default, which is 0 as a float too. *)
Lemma shipping_value_of (f : field float) (v : number) :
  value_of (NInt 0) (field_map NFloat f) v -> value_of 0%float f (float_of_number v).
Proof.
  unfold value_of. destruct f as [|x|]; simpl.
  - intros [Hg|[_ ->]]; [discriminate|]. by right.
  - intros [[= <-]|[Hg _]]; [|discriminate]. by left.
  - intros [Hg|[Hg _]]; discriminate.
Qed.

Lemma OrderItem_validate_inv (r : OrderItem.Raw.t) (i : OrderItem.t) :
  OrderItem.validate r = Valid i -> item_of r i.
Proof.
  unfold OrderItem.validate. intros Hv. peel_fields Hv. injection Hv as <-.
  unfold item_of. simpl. split_and!; try done. by apply Z.leb_le.
Qed.

(** X15: what an accepted order holds: the customer's name as given, one
    item per item of the body, in the same order and with the values
    given, each with a quantity of at least 1 and a unit price of at least
    0; and [subtotal] and [total] exactly as the body gives them, whatever
    the items are: they are not recomputed or checked against the items.
    [shipping] and [status] are the values given or the defaults 0 and
    "received". *)
Theorem order_validation_result (body : OrderIn.Raw.t) (o : OrderIn.t) :
  OrderIn.validate body = Valid o ->
  exists (c : Customer.Raw.t) (rs : list OrderItem.Raw.t),
    OrderIn.Raw.customer body = Given c /\
    Customer.Raw.name c = Given (Customer.name (OrderIn.customer o)) /\
    OrderIn.Raw.items body = Given rs /\
    Forall2 item_of rs (OrderIn.items o) /\
    Forall (fun i => (1 <= OrderItem.qty i)%Z /\ PrimFloat.leb 0 (OrderItem.unitPrice i) = true)
      (OrderIn.items o) /\
    OrderIn.Raw.subtotal body = Given (OrderIn.subtotal o) /\
    OrderIn.Raw.total body = Given (OrderIn.total o) /\
    value_of 0%float (OrderIn.Raw.shipping body) (OrderIn.shipping o) /\
    value_of "received" (OrderIn.Raw.status body) (OrderIn.status o).
Proof.
  unfold OrderIn.validate. intros Hv. peel_fields Hv. injection Hv as <-.
  apply Model_Valid_inv in Ha4 as (c & Hc & Hcv).
  apply Model_Valid_inv in Ha3 as (rs & Hrs & Hitems).
  apply Items_Valid_inv in Hitems.
  assert (Hof : Forall2 item_of rs a3).
  { eapply Forall2_impl; [exact Hitems|]. apply OrderItem_validate_inv. }
  unfold Customer.validate in Hcv. peel_fields Hcv. injection Hcv as <-.
  exists c, rs. simpl. split_and!; try done; [|by apply shipping_value_of].
  clear -Hof. induction Hof as [|r i rs l Hi _ IH]; constructor; [|exact IH].
  destruct Hi as (_ & _ & _ & Hq & _ & Hp). by split.
Qed.

Lemma order_validation_result_witness :
  exists (c : Customer.Raw.t) (rs : list OrderItem.Raw.t),
    OrderIn.Raw.customer pots_order_body = Given c /\
    Customer.Raw.name c = Given (Customer.name (OrderIn.customer pots_order)) /\
    OrderIn.Raw.items pots_order_body = Given rs /\
    Forall2 item_of rs (OrderIn.items pots_order) /\
    Forall (fun i => (1 <= OrderItem.qty i)%Z /\ PrimFloat.leb 0 (OrderItem.unitPrice i) = true)
      (OrderIn.items pots_order) /\
    OrderIn.Raw.subtotal pots_order_body = Given (OrderIn.subtotal pots_order) /\
    OrderIn.Raw.total pots_order_body = Given (OrderIn.total pots_order) /\
    value_of 0%float (OrderIn.Raw.shipping pots_order_body) (OrderIn.shipping pots_order) /\
    value_of "received" (OrderIn.Raw.status pots_order_body) (OrderIn.status pots_order).
Proof. apply (order_validation_result pots_order_body pots_order). reflexivity. Defined.

(** ** More on listing products *)

Section ListProductsMore.
Context `{Runtime}.

Lemma matches_insert (flt : query) (k : string) (c : condition) (d : doc) :
  flt !! k = None -> matches (<[k := c]> flt) d = holds c (d !! k) && matches flt d.
Proof.
  intros Hk. unfold matches.
  destruct (holds c (d !! k)) eqn:Hc; simpl.
  - apply bool_decide_ext. rewrite map_Forall_insert by done. tauto.
  - apply bool_decide_eq_false. rewrite map_Forall_insert by done. intros [? _]. congruence.
Qed.

Lemma query_compiles_insert (flt : query) (k : string) (c : condition) :
  flt !! k = None ->
  query_compiles (<[k := c]> flt) = bool_decide (condition_compiles c) && query_compiles flt.
Proof.
  intros Hk. unfold query_compiles.
  destruct (bool_decide (condition_compiles c)) eqn:Hc; simpl.
  - apply bool_decide_eq_true in Hc. apply bool_decide_ext.
    rewrite map_Forall_insert by done. tauto.
  - apply bool_decide_eq_false in Hc. apply bool_decide_eq_false.
    rewrite map_Forall_insert by done. tauto.
Qed.

(** The handler on a working store, through the filter it builds. *)
Lemma list_products_run (category q : option string) (limit : Z) (db : Database) :
  fault db = None ->
  list_products category q limit (Some db)
  = if query_compiles (products_filter category q)
    then (Ok ((fun d => serialize_doc (Some d)) <$>
                Cursor_limit (Z.min limit 200)
                  (List.filter (matches (products_filter category q))
                     (collection db "product"))),
          Some db)
    else (Raise (PyMongoError "Regular expression is invalid"), Some db).
Proof.
  intros Hf. unfold list_products, mbind, M_bind, get_db, getattr_db, find, products_filter.
  cbn -[serialize_doc Cursor_limit collection Z.min query_compiles matches truthy].
  rewrite Hf. by destruct (query_compiles _).
Qed.

Lemma products_filter_title_free (category : option string) :
  products_filter category None !! "title" = None.
Proof.
  unfold products_filter. destruct category as [c|]; [|done].
  destruct (truthy (Some c)); [|done]. by rewrite lookup_insert_ne.
Qed.

Lemma products_filter_with_q (category : option string) (p : string) :
  p <> "" ->
  products_filter category (Some p)
  = <["title" := Regex p "i"]> (products_filter category None).
Proof.
  intros Hp. unfold products_filter.
  assert (Ht : truthy (Some p) = true).
  { unfold truthy. apply String.eqb_neq in Hp. by rewrite Hp. }
  by rewrite Ht.
Qed.

Lemma products_filter_without_q (category : option string) :
  products_filter category (Some "") = products_filter category None.
Proof. reflexivity. Qed.

Lemma products_filter_compiles (category q : option string) :
  (forall p, q = Some p -> p <> "" -> is_Some (regex_search p "i")) ->
  query_compiles (products_filter category q) = true.
Proof.
  intros Hq.
  assert (Hcat : query_compiles (products_filter category None) = true).
  { unfold products_filter. destruct category as [c|]; [|apply query_compiles_empty].
    destruct (truthy (Some c)); [|apply query_compiles_empty].
    rewrite insert_empty. by apply query_compiles_singleton. }
  destruct q as [p|]; [|exact Hcat].
  destruct (String.eqb_spec p "") as [->|Hp].
  - exact Hcat.
  - rewrite products_filter_with_q by done.
    rewrite query_compiles_insert by apply products_filter_title_free.
    rewrite Hcat, andb_true_r. apply bool_decide_eq_true. simpl. by apply Hq.
Qed.

(** X16: with both a category and a [q], the handler hands the store
    both conditions and they are joined: the listing is made of the
    products of which both the equality condition on [category] and the
    regular-expression condition on [title] (option "i") hold, in store
    order, cut at the limit. *)
Theorem list_products_both_filters (c p : string) (limit : Z) (db : Database) :
  c <> "" ->
  p <> "" ->
  is_Some (regex_search p "i") ->
  fault db = None ->
  list_products (Some c) (Some p) limit (Some db)
  = (Ok ((fun d => serialize_doc (Some d)) <$>
           Cursor_limit (Z.min limit 200)
             (List.filter
                (fun d : doc =>
                   holds (EqStr c) (d !! "category") && holds (Regex p "i") (d !! "title"))
                (collection db "product"))),
     Some db).
Proof.
  intros Hc Hp Hre Hf. rewrite list_products_run by done.
  rewrite products_filter_compiles by (by intros p' [= <-] _).
  do 4 f_equal. apply List.filter_ext. intros d.
  rewrite products_filter_with_q by done.
  rewrite matches_insert by apply products_filter_title_free.
  unfold products_filter, truthy. apply String.eqb_neq in Hc. rewrite Hc.
  cbn [negb]. rewrite insert_empty, matches_singleton. apply andb_comm.
Qed.

(** X17: on a working store, with a limit of at least 1 and a [q] that
    compiles, the listing is the first [min(limit, 200)] matching
    products in store order, serialized: it has
    [min(limit, 200, number of matches)] records, and they come in the
    order, and among the serializations, of the stored products. *)
Theorem list_products_first_matches (category q : option string) (limit : Z)
    (db : Database) :
  fault db = None ->
  (forall p, q = Some p -> p <> "" -> is_Some (regex_search p "i")) ->
  (1 <= limit)%Z ->
  exists items : list (option doc),
    list_products category q limit (Some db) = (Ok items, Some db) /\
    items = (fun d => serialize_doc (Some d)) <$>
              take (Z.to_nat (Z.min limit 200))
                (List.filter (matches (products_filter category q)) (collection db "product")) /\
    List.length items
    = Nat.min (Z.to_nat (Z.min limit 200))
        (List.length
           (List.filter (matches (products_filter category q)) (collection db "product"))) /\
    sublist items ((fun d => serialize_doc (Some d)) <$> collection db "product").
Proof.
  intros Hf Hq Hl. eexists. rewrite list_products_run, products_filter_compiles by done.
  split; [reflexivity|].
  assert (Hcut : forall docs : list doc,
            Cursor_limit (Z.min limit 200) docs = take (Z.to_nat (Z.min limit 200)) docs).
  { intros docs. unfold Cursor_limit. destruct (Z.eqb_spec (Z.min limit 200) 0); [lia|].
    f_equal. lia. }
  rewrite Hcut. split_and!.
  - reflexivity.
  - by rewrite length_fmap, length_take.
  - apply fmap_sublist. etrans; [apply sublist_take|].
    clear. induction (collection db "product") as [|d l IH]; simpl; [constructor|].
    destruct (matches _ d); by constructor.
Qed.

(** X18: [q] reaches the store as a regular expression, as it is: when
    it is not one the store can compile, the listing fails with the
    store's error (a 500) instead of an empty list, and nothing is
    written. *)
Theorem list_products_bad_pattern (category : option string) (p : string) (limit : Z)
    (db : Database) :
  p <> "" ->
  regex_search p "i" = None ->
  fault db = None ->
  exists e,
    list_products category (Some p) limit (Some db) = (Raise e, Some db) /\
    status_of (fst (list_products category (Some p) limit (Some db))) = 500%Z.
Proof.
  intros Hp Hre Hf. rewrite list_products_run by done.
  assert (Hno : query_compiles (products_filter category (Some p)) = false).
  { rewrite products_filter_with_q by done.
    rewrite query_compiles_insert by apply products_filter_title_free.
    apply andb_false_iff. left. apply bool_decide_eq_false. simpl. rewrite Hre.
    by intros [? ?]. }
  rewrite Hno. by eexists.
Qed.

End ListProductsMore.

(** ** More on creating records *)

Section CreateMore.
Context `{Runtime}.

Lemma serialize_doc_stored (new_id : ObjectId) (data : doc) :
  serialize_doc (Some (with_id new_id data))
  = Some (with_public_id new_id (delete "_id" data)).
Proof.
  unfold with_id, with_public_id.
  rewrite (serialize_doc_with_id _ (VObjectId new_id)) by apply lookup_insert_eq.
  by rewrite delete_insert_eq.
Qed.

Lemma find_one_appended (db : Database) (name : string) (new_id : ObjectId) (data : doc) :
  (forall d, d ∈ collection db name -> d !! "_id" <> Some (VObjectId new_id)) ->
  find_one name {[ "_id" := EqObjectId new_id ]}
    (Some (insert_into db name (with_id new_id data)))
  = (Ok (Some (with_id new_id data)), Some (insert_into db name (with_id new_id data))).
Proof.
  intros Hfresh. rewrite find_one_by_id by reflexivity.
  unfold insert_into. rewrite collection_written, List.filter_app, filter_none.
  - assert (Hid : holds (EqObjectId new_id) (with_id new_id data !! "_id") = true)
      by (apply holds_EqObjectId, lookup_insert_eq).
    cbn [List.filter app]. by rewrite Hid.
  - intros d Hd. destruct (holds (EqObjectId new_id) (d !! "_id")) eqn:E; [|done].
    apply holds_EqObjectId in E. by apply Hfresh in Hd.
Qed.

(** Writing a document and reading it back by its new id. *)
Lemma create_and_read_back (db : Database) (name : string) (new_id : ObjectId) (data : doc) :
  fault db = None ->
  Bson.well_formed new_id ->
  (forall d, d ∈ collection db name -> d !! "_id" <> Some (VObjectId new_id)) ->
  (prod_id ← create_document new_id name data;
   coll ← getattr_db name;
   oid ← ObjectId_ prod_id;
   obj ← find_one coll {[ "_id" := EqObjectId oid ]};
   mret (serialize_doc obj)) (Some db)
  = (Ok (Some (with_public_id new_id (delete "_id" (data ∪ assigned db)))),
     Some (insert_into db name (with_id new_id (data ∪ assigned db)))).
Proof.
  intros Hf Hwf Hfresh.
  unfold mbind, M_bind, create_document, getattr_db, ObjectId_.
  rewrite Hf, of_str_to_str by assumption.
  cbn -[find_one serialize_doc collection union].
  change (mkDatabase
            (<[name := collection db name ++ [<["_id" := VObjectId new_id]> (data ∪ assigned db)]]>
               (collections db)) None (assigned db))
    with (insert_into db name (with_id new_id (data ∪ assigned db))).
  rewrite find_one_appended by assumption. by rewrite serialize_doc_stored.
Qed.

Lemma create_product_run (db : Database) (new_id : ObjectId) (p : ProductIn.t) :
  fault db = None ->
  Bson.well_formed new_id ->
  (forall d, d ∈ collection db "product" -> d !! "_id" <> Some (VObjectId new_id)) ->
  create_product new_id p (Some db)
  = (Ok (Some (with_public_id new_id (delete "_id" (ProductIn.model_dump p ∪ assigned db)))),
     Some (insert_into db "product" (with_id new_id (ProductIn.model_dump p ∪ assigned db)))).
Proof.
  intros Hf Hwf Hfresh. unfold create_product.
  by apply create_and_read_back.
Qed.

(** X20: [POST /api/orders] with an accepted body, on a working store and
    with a newly generated identifier, appends exactly one record to the
    order collection and answers with that record as read back by its new
    id, serialized; the record and the answer hold every field of the
    validated order as dumped, a [shipping] that was left out being the
    integer 0 of the declared default, and what the store assigned on its
    own. Every other collection, the products among them, is left alone
    and is not consulted: the order is stored whatever its items' product
    ids are. *)
Theorem create_order_answer (db : Database) (new_id : ObjectId)
    (body : OrderIn.Raw.t) (payload : OrderIn.t) :
  OrderIn.validate body = Valid payload ->
  fault db = None ->
  Bson.well_formed new_id ->
  (forall d, d ∈ collection db "order" -> d !! "_id" <> Some (VObjectId new_id)) ->
  exists (stored out : doc) (db' : Database),
    post_api_orders new_id body (Some db) = (Ok (Some out), Some db') /\
    collection db' "order" = collection db "order" ++ [stored] /\
    (forall name, name <> "order" -> collection db' name = collection db name) /\
    find_one "order" {[ "_id" := EqObjectId new_id ]} (Some db') = (Ok (Some stored), Some db') /\
    serialize_doc (Some stored) = Some out /\
    stored !! "_id" = Some (VObjectId new_id) /\
    out !! "id" = Some (VStr (Bson.to_str new_id)) /\
    out !! "_id" = None /\
    (forall k v, OrderIn.model_dump payload !! k = Some v ->
       stored !! k = Some v /\ out !! k = Some v) /\
    (OrderIn.Raw.shipping body = Absent -> out !! "shipping" = Some (VInt 0)) /\
    (forall x, OrderIn.Raw.shipping body = Given x -> out !! "shipping" = Some (VFloat x)) /\
    (forall k v, assigned db !! k = Some v -> OrderIn.model_dump payload !! k = None ->
       k <> "_id" -> k <> "id" -> stored !! k = Some v /\ out !! k = Some v).
Proof.
  intros Hvalid Hf Hwf Hfresh.
  set (data := OrderIn.model_dump payload ∪ assigned db).
  assert (Hdump : forall k v, OrderIn.model_dump payload !! k = Some v ->
            k <> "id" /\ k <> "_id" /\ data !! k = Some v).
  { intros k v Hk. split_and!.
    - intros ->. discriminate Hk.
    - intros ->. discriminate Hk.
    - by apply lookup_union_Some_l. }
  assert (Hkeep : forall k v, k <> "id" -> k <> "_id" -> data !! k = Some v ->
            with_id new_id data !! k = Some v /\
            with_public_id new_id (delete "_id" data) !! k = Some v).
  { intros k v Hk1 Hk2 Hk. unfold with_id, with_public_id.
    by rewrite !lookup_insert_ne, lookup_delete_ne. }
  assert (Hship : OrderIn.model_dump payload !! "shipping"
                  = Some (number_value (OrderIn.shipping payload))) by reflexivity.
  assert (Hvalue : value_of (NInt 0) (field_map NFloat (OrderIn.Raw.shipping body))
                     (OrderIn.shipping payload)).
  { revert Hvalid. unfold OrderIn.validate. intros Hv. peel_fields Hv.
    by injection Hv as <-. }
  exists (with_id new_id data), (with_public_id new_id (delete "_id" data)),
         (insert_into db "order" (with_id new_id data)).
  split_and!.
  - unfold post_api_orders. rewrite Hvalid. unfold create_order.
    by apply create_and_read_back.
  - apply collection_written.
  - intros name Hne. by apply collection_untouched.
  - by apply find_one_appended.
  - apply serialize_doc_stored.
  - apply lookup_insert_eq.
  - apply lookup_insert_eq.
  - unfold with_public_id. rewrite lookup_insert_ne by done. apply lookup_delete_eq.
  - intros k v Hk. apply Hdump in Hk as (Hk1 & Hk2 & Hk). by apply Hkeep.
  - intros Habs. rewrite Habs in Hvalue. destruct Hvalue as [Hg|[_ Hd]]; [discriminate|].
    rewrite Hd in Hship. apply Hdump in Hship as (Hk1 & Hk2 & Hk). by apply Hkeep.
  - intros x Hx. rewrite Hx in Hvalue. destruct Hvalue as [[= Hg]|[Hg _]]; [|discriminate].
    rewrite <- Hg in Hship. apply Hdump in Hship as (Hk1 & Hk2 & Hk). by apply Hkeep.
  - intros k v Hk Hnone Hk1 Hk2. apply Hkeep; try done. unfold data.
    by rewrite lookup_union_r.
Qed.

(** On a store that stamps its records, the answers carry the stamp,
    which no payload has; an order posted without [shipping] comes back
    with the integer 0. *)
Example read_back_scenario :
  match post_api_products sample_id clay_pot_body (Some stamping_store) with
  | (Ok (Some out), _) =>
      out !! "created_at" = Some (VStr "2024-05-01T10:00:00Z") /\
      ProductIn.model_dump clay_pot !! "created_at" = None
  | _ => False
  end /\
  match post_api_orders sample_id pots_order_body (Some stamping_store) with
  | (Ok (Some out), _) =>
      out !! "created_at" = Some (VStr "2024-05-01T10:00:00Z") /\
      out !! "shipping" = Some (VInt 0)
  | _ => False
  end.
Proof. split; vm_compute; by split. Qed.

(** X22: a created product shows up in the listing: when the products
    on a working store number fewer than [min(limit, 200)], the
    unfiltered listing after a successful [POST /api/products] is the
    listing before it followed by the answer of the post. *)
Theorem create_product_then_list (db : Database) (new_id : ObjectId)
    (body : ProductIn.Raw.t) (payload : ProductIn.t) (limit : Z) :
  ProductIn.validate body = Valid payload ->
  fault db = None ->
  Bson.well_formed new_id ->
  (forall d, d ∈ collection db "product" -> d !! "_id" <> Some (VObjectId new_id)) ->
  (Z.of_nat (List.length (collection db "product")) < Z.min limit 200)%Z ->
  exists (out : doc) (db' : Database) (before : list (option doc)),
    post_api_products new_id body (Some db) = (Ok (Some out), Some db') /\
    list_products None None limit (Some db) = (Ok before, Some db) /\
    list_products None None limit (Some db') = (Ok (before ++ [Some out]), Some db').
Proof.
  intros Hvalid Hf Hwf Hfresh Hroom.
  set (data := ProductIn.model_dump payload ∪ assigned db).
  assert (Hcut : forall docs : list doc,
            (Z.of_nat (List.length docs) <= Z.min limit 200)%Z ->
            Cursor_limit (Z.min limit 200) docs = docs).
  { intros docs Hlen. unfold Cursor_limit. destruct (Z.eqb_spec (Z.min limit 200) 0); [done|].
    apply take_ge. lia. }
  exists (with_public_id new_id (delete "_id" data)),
         (insert_into db "product" (with_id new_id data)),
         ((fun d => serialize_doc (Some d)) <$> collection db "product").
  split_and!.
  - unfold post_api_products. rewrite Hvalid. by apply create_product_run.
  - rewrite list_products_unfiltered by done. by rewrite Hcut by lia.
  - rewrite list_products_unfiltered by reflexivity.
    unfold insert_into at 1. rewrite collection_written.
    rewrite Hcut by (rewrite length_app; simpl; lia).
    rewrite fmap_app.
    change ((fun d => serialize_doc (Some d)) <$> [with_id new_id data])
      with [serialize_doc (Some (with_id new_id data))].
    by rewrite serialize_doc_stored.
Qed.

End CreateMore.

(** ** The further theorems at sample inputs *)

Lemma list_products_both_filters_witness :
  @list_products sample_runtime (Some "pottery") (Some "Pot") 100 (Some mixed_store)
  = (Ok ((fun d => @serialize_doc sample_runtime (Some d)) <$>
           Cursor_limit (Z.min 100 200)
             (List.filter
                (fun d : doc =>
                   @holds sample_runtime (EqStr "pottery") (d !! "category")
                   && @holds sample_runtime (Regex "Pot" "i") (d !! "title"))
                (collection mixed_store "product"))),
     Some mixed_store).
Proof.
  apply (@list_products_both_filters sample_runtime "pottery" "Pot" 100 mixed_store).
  - discriminate.
  - discriminate.
  - simpl. by eexists.
  - reflexivity.
Defined.

Lemma list_products_first_matches_witness :
  exists items : list (option doc),
    @list_products sample_runtime (Some "pottery") (Some "Pot") 1 (Some mixed_store)
    = (Ok items, Some mixed_store) /\
    items = (fun d => @serialize_doc sample_runtime (Some d)) <$>
              take (Z.to_nat (Z.min 1 200))
                (List.filter
                   (@matches sample_runtime (products_filter (Some "pottery") (Some "Pot")))
                   (collection mixed_store "product")) /\
    List.length items
    = Nat.min (Z.to_nat (Z.min 1 200))
        (List.length
           (List.filter
              (@matches sample_runtime (products_filter (Some "pottery") (Some "Pot")))
              (collection mixed_store "product"))) /\
    sublist items
      ((fun d => @serialize_doc sample_runtime (Some d)) <$> collection mixed_store "product").
Proof.
  apply (@list_products_first_matches sample_runtime (Some "pottery") (Some "Pot") 1
           mixed_store).
  - reflexivity.
  - intros p _ _. simpl. by eexists.
  - lia.
Defined.

Lemma list_products_bad_pattern_witness :
  exists e,
    @list_products picky_runtime None (Some "(") 100 (Some mixed_store)
    = (Raise e, Some mixed_store) /\
    status_of (fst (@list_products picky_runtime None (Some "(") 100 (Some mixed_store)))
    = 500%Z.
Proof.
  apply (@list_products_bad_pattern picky_runtime None "(" 100 mixed_store).
  - discriminate.
  - reflexivity.
  - reflexivity.
Defined.

Lemma create_order_answer_witness :
  exists (stored out : doc) (db' : Database),
    @post_api_orders sample_runtime sample_id pots_order_body (Some stamping_store)
    = (Ok (Some out), Some db') /\
    collection db' "order" = collection stamping_store "order" ++ [stored] /\
    (forall name, name <> "order" -> collection db' name = collection stamping_store name) /\
    @find_one sample_runtime "order" {[ "_id" := EqObjectId sample_id ]} (Some db')
    = (Ok (Some stored), Some db') /\
    @serialize_doc sample_runtime (Some stored) = Some out /\
    stored !! "_id" = Some (VObjectId sample_id) /\
    out !! "id" = Some (VStr (Bson.to_str sample_id)) /\
    out !! "_id" = None /\
    (forall k v, OrderIn.model_dump pots_order !! k = Some v ->
       stored !! k = Some v /\ out !! k = Some v) /\
    (OrderIn.Raw.shipping pots_order_body = Absent -> out !! "shipping" = Some (VInt 0)) /\
    (forall x, OrderIn.Raw.shipping pots_order_body = Given x ->
       out !! "shipping" = Some (VFloat x)) /\
    (forall k v, assigned stamping_store !! k = Some v ->
       OrderIn.model_dump pots_order !! k = None ->
       k <> "_id" -> k <> "id" -> stored !! k = Some v /\ out !! k = Some v).
Proof.
  apply (@create_order_answer sample_runtime stamping_store sample_id pots_order_body
           pots_order).
  - reflexivity.
  - reflexivity.
  - reflexivity.
  - apply Forall_forall. constructor.
Defined.

Lemma create_product_then_list_witness :
  exists (out : doc) (db' : Database) (before : list (option doc)),
    @post_api_products sample_runtime sample_id clay_pot_body (Some two_category_store)
    = (Ok (Some out), Some db') /\
    @list_products sample_runtime None None 100 (Some two_category_store)
    = (Ok before, Some two_category_store) /\
    @list_products sample_runtime None None 100 (Some db')
    = (Ok (before ++ [Some out]), Some db').
Proof.
  apply (@create_product_then_list sample_runtime two_category_store sample_id clay_pot_body
           clay_pot 100).
  - reflexivity.
  - reflexivity.
  - reflexivity.
  - apply Forall_forall. repeat constructor; vm_compute; discriminate.
  - reflexivity.
Defined.
